(** * utils/common_func.py: a shallow embedding and its verified properties

    The Python module is a collection of helpers: an HTTP request wrapper,
    byte-size unit conversion, file readers and writers for text, JSON and
    CSV, a pair of functions that pick a reader or writer from the
    extension of a path, an MD5 helper, folder creation, and a file copy
    with text replacement.

    Conventions of the embedding
    - A Python call either returns a value or raises: [result A].
    - Exceptions carry their class and the text of [str(e)]; [except C]
      catches by class, following the hierarchy of the interpreter.
    - The file system is a finite map from paths to nodes, threaded
      explicitly through the writers.
    - Functions of the standard library whose text is not part of the
      module ([json.load], [json.dump], [csv.reader], [csv.writer], [str],
      the [requests] calls, [hashlib.md5], [os.makedirs]) are parameters
      of the development; [open], [os.path.splitext], [shutil.copy] and
      [str.replace] are modelled on the file system and on strings, with
      paths compared as they are written.
    - Numbers of the size conversion are exact rationals: [int] arithmetic
      is exact in Python, and [float] rounding is not modelled. *)

From Stdlib Require Import ZArith QArith Lia Ascii String.
From stdpp Require Import base option list strings pretty gmap.

Set Warnings "-register-all".
Local Open Scope Z_scope.

(** ** Results and exceptions *)

Inductive exn_class :=
  | ExceptionC
  | OSErrorC
  | FileNotFoundErrorC
  | IsADirectoryErrorC
  | NotADirectoryErrorC
  | ConnectionErrorC
  | ConnectionRefusedErrorC
  | RequestsConnectionErrorC
  | RequestsReadTimeoutC
  | ValueErrorC
  | JSONDecodeErrorC
  | AttributeErrorC
  | ZeroDivisionErrorC
  | IndexErrorC
  | KeyErrorC
  | TypeErrorC
  | StopIterationC
  | CsvErrorC.

Record exn := MkExn { exn_cls : exn_class; exn_str : string }.

Inductive result (A : Type) :=
  | Ok (a : A)
  | Raise (e : exn).
Arguments Ok {A} a.
Arguments Raise {A} e.

(** Sequencing: the first exception raised ends the computation. The
    instances give the notation [x ← m; k]. *)
#[global] Instance result_ret : MRet result := fun A a => Ok a.

#[global] Instance result_bind : MBind result := fun A B k m =>
  match m with
  | Ok a => k a
  | Raise e => Raise e
  end.

#[global] Instance result_fmap : FMap result := fun A B f m =>
  match m with
  | Ok a => Ok (f a)
  | Raise e => Raise e
  end.

Definition class_eqb (c d : exn_class) : bool :=
  match c, d with
  | ExceptionC, ExceptionC | OSErrorC, OSErrorC
  | FileNotFoundErrorC, FileNotFoundErrorC
  | IsADirectoryErrorC, IsADirectoryErrorC
  | NotADirectoryErrorC, NotADirectoryErrorC
  | ConnectionErrorC, ConnectionErrorC
  | ConnectionRefusedErrorC, ConnectionRefusedErrorC
  | RequestsConnectionErrorC, RequestsConnectionErrorC
  | RequestsReadTimeoutC, RequestsReadTimeoutC
  | ValueErrorC, ValueErrorC | JSONDecodeErrorC, JSONDecodeErrorC
  | AttributeErrorC, AttributeErrorC
  | ZeroDivisionErrorC, ZeroDivisionErrorC
  | IndexErrorC, IndexErrorC | KeyErrorC, KeyErrorC
  | TypeErrorC, TypeErrorC | StopIterationC, StopIterationC
  | CsvErrorC, CsvErrorC => true
  | _, _ => false
  end.

(** The direct base class; [ExceptionC] is the root of what is modelled. *)
Definition base_class (c : exn_class) : option exn_class :=
  match c with
  | ExceptionC => None
  | FileNotFoundErrorC | IsADirectoryErrorC | NotADirectoryErrorC
  | ConnectionErrorC | RequestsConnectionErrorC => Some OSErrorC
  | ConnectionRefusedErrorC => Some ConnectionErrorC
  | RequestsReadTimeoutC => Some OSErrorC
  | JSONDecodeErrorC => Some ValueErrorC
  | _ => Some ExceptionC
  end.

Fixpoint subclass_fuel (n : nat) (c d : exn_class) : bool :=
  class_eqb c d ||
  match n with
  | O => false
  | S n' => match base_class c with
            | Some b => subclass_fuel n' b d
            | None => false
            end
  end.

(** [issubclass(c, d)]; the hierarchy is three levels deep. *)
Definition issubclass (c d : exn_class) : bool := subclass_fuel 3 c d.

Definition isinstance (e : exn) (d : exn_class) : bool :=
  issubclass (exn_cls e) d.

(** The [except] clauses of a [try]: the first clause whose class the
    exception is an instance of runs; what a clause raises is not offered
    to the clauses after it. *)
Fixpoint handle {A} (clauses : list (exn_class * (exn -> result A)))
    (e : exn) : result A :=
  match clauses with
  | [] => Raise e
  | (c, h) :: clauses' => if isinstance e c then h e else handle clauses' e
  end.

Definition try_except {A} (body : result A)
    (clauses : list (exn_class * (exn -> result A))) : result A :=
  match body with
  | Ok a => Ok a
  | Raise e => handle clauses e
  end.

(** ** Python values that travel through the helpers *)

Inductive pyobj :=
  | PNone
  | PBool (b : bool)
  | PInt (z : Z)
  | PStr (s : string)
  | PList (l : list pyobj)
  | PDict (l : list (string * pyobj)).

(** ** Byte-size conversion *)

Inductive MemoryUnit :=
  | B | kB | MB | GB | TB | PB | KiB | MiB | GiB | TiB | PiB.

Definition unit_value (u : MemoryUnit) : Z :=
  match u with
  | B => 0 | kB => 1 | MB => 2 | GB => 3 | TB => 4 | PB => 5
  | KiB => 6 | MiB => 7 | GiB => 8 | TiB => 9 | PiB => 10
  end.

Definition unit_name (u : MemoryUnit) : string :=
  match u with
  | B => "B" | kB => "kB" | MB => "MB" | GB => "GB" | TB => "TB"
  | PB => "PB" | KiB => "KiB" | MiB => "MiB" | GiB => "GiB"
  | TiB => "TiB" | PiB => "PiB"
  end.

(** The [size] argument: a [float] or [int], or anything else. *)
Inductive size_arg :=
  | Number (q : Q)
  | NotNumber (v : pyobj).

(** What the converters return: the number, or the text
    [f"{size:.2f} {name}"], kept as its two parts. *)
Inductive size_result :=
  | AsNumber (q : Q)
  | AsText (q : Q) (name : string).

Definition size_type_error : exn := MkExn ValueErrorC "Size type is not valid".

Definition convert_bytes (size : size_arg) (target_unit : MemoryUnit)
    (return_num : bool) : result size_result :=
  match size with
  | NotNumber _ => Raise size_type_error
  | Number size =>
      let size :=
        if unit_value target_unit <? 6
        then (size / inject_Z (1000 ^ unit_value target_unit))%Q
        else (size / inject_Z (1024 ^ (unit_value target_unit - 5)))%Q in
      if return_num then Ok (AsNumber size)
      else Ok (AsText size (unit_name target_unit))
  end.

Definition convert_to_bytes (size : size_arg) (target_unit : MemoryUnit)
    (return_num : bool) : result size_result :=
  match size with
  | NotNumber _ => Raise size_type_error
  | Number size =>
      let size :=
        if unit_value target_unit <? 6
        then (size * inject_Z (1000 ^ unit_value target_unit))%Q
        else (size * inject_Z (1024 ^ (unit_value target_unit - 6)))%Q in
      if return_num then Ok (AsNumber size)
      else Ok (AsText size (unit_name B))
  end.

(** The value a converter hands to the next one ([return_num = True]). *)
Definition as_size_arg (r : size_result) : size_arg :=
  match r with
  | AsNumber q => Number q
  | AsText q name => NotNumber (PStr name)
  end.

Definition convert_data_size (size : size_arg)
    (current_unit convert_unit : MemoryUnit) (return_num : bool)
    : result size_result :=
  size_in_bytes ← convert_to_bytes size current_unit true;
  convert_bytes (as_size_arg size_in_bytes) convert_unit return_num.

(** The number of bytes in one unit, as the specification words it:
    1000 per step for the decimal units, 1024 per step for the binary
    ones ([KiB] is one step, [PiB] five). *)
Definition unit_steps (u : MemoryUnit) : Z :=
  match u with
  | B => 0 | kB | KiB => 1 | MB | MiB => 2 | GB | GiB => 3
  | TB | TiB => 4 | PB | PiB => 5
  end.

Definition is_binary (u : MemoryUnit) : bool :=
  match u with
  | KiB | MiB | GiB | TiB | PiB => true
  | _ => false
  end.

Definition bytes_per_unit (u : MemoryUnit) : Z :=
  (if is_binary u then 1024 else 1000) ^ unit_steps u.

(** ** Enumerations and the value patterns of [match]

    [RequestMethods] and [ExtensionType] derive from plain [Enum]: a member
    is equal to itself only. *)

Inductive RequestMethods := GET | POST | DELETE | PUT.

Inductive ExtensionType := TXT | JSON | CSV | LOG | PY.

Definition ExtensionType_value (e : ExtensionType) : string :=
  match e with
  | TXT => ".txt" | JSON => ".json" | CSV => ".csv"
  | LOG => ".log" | PY => ".py"
  end.

Inductive enum_member :=
  | RequestMethod (m : RequestMethods)
  | Extension (e : ExtensionType)
  | Memory (u : MemoryUnit).

(** The arguments of the helpers: the values of [pyobj], or an
    enumeration member. *)
Inductive pyarg :=
  | Value (v : pyobj)
  | Member (m : enum_member).

#[global] Instance RequestMethods_eq_dec : EqDecision RequestMethods.
Proof. solve_decision. Defined.
#[global] Instance ExtensionType_eq_dec : EqDecision ExtensionType.
Proof. solve_decision. Defined.
#[global] Instance MemoryUnit_eq_dec : EqDecision MemoryUnit.
Proof. solve_decision. Defined.
#[global] Instance enum_member_eq_dec : EqDecision enum_member.
Proof. solve_decision. Defined.

(** [case Cls.NAME:] is a value pattern: the subject matches when
    [subject == Cls.NAME]. Neither [str] nor any other value of [pyobj]
    compares equal to a member of a plain [Enum], and two members are
    equal when they are the same member. *)
Definition matches_member (subject : pyarg) (m : enum_member) : bool :=
  match subject with
  | Member m' => bool_decide (m' = m)
  | Value _ => false
  end.

(** ** Strings: slices, [rfind], [os.path.splitext] *)

Fixpoint string_take (n : nat) (s : string) : string :=
  match n, s with
  | S n', String c s' => String c (string_take n' s')
  | _, _ => EmptyString
  end.

Fixpoint string_drop (n : nat) (s : string) : string :=
  match n, s with
  | S n', String _ s' => string_drop n' s'
  | _, _ => s
  end.

(** [p[i:j]] for indices that are not negative. *)
Definition slice (p : string) (i j : Z) : string :=
  string_take (Z.to_nat (j - i)) (string_drop (Z.to_nat i) p).

Fixpoint rfind_from (c : ascii) (s : string) (i last : Z) : Z :=
  match s with
  | EmptyString => last
  | String a s' => rfind_from c s' (i + 1) (if Ascii.eqb a c then i else last)
  end.

(** [p.rfind(c)]: the highest index of [c], or [-1]. *)
Definition rfind (c : ascii) (p : string) : Z := rfind_from c p 0 (-1).

(** The loop of [genericpath._splitext] that skips the leading dots of the
    file name: [true] when a character other than the dot stands between
    [filenameIndex] and [dotIndex]. *)
Fixpoint has_name_before_dot (fuel : nat) (p : string)
    (filenameIndex dotIndex : Z) : bool :=
  match fuel with
  | O => false
  | S fuel' =>
      if filenameIndex <? dotIndex then
        if negb (String.eqb (slice p filenameIndex (filenameIndex + 1)) ".")
        then true
        else has_name_before_dot fuel' p (filenameIndex + 1) dotIndex
      else false
  end.

(** [os.path.splitext] of [posixpath]: separator [/], extension
    separator [.], no alternative separator. *)
Definition splitext (p : string) : string * string :=
  let sepIndex := rfind "/"%char p in
  let dotIndex := rfind "."%char p in
  if (sepIndex <? dotIndex)
     && has_name_before_dot (String.length p) p (sepIndex + 1) dotIndex
  then (slice p 0 dotIndex, string_drop (Z.to_nat dotIndex) p)
  else (p, EmptyString).

Definition get_extension (file_path : string) : string :=
  snd (splitext file_path).

(** [os.path.dirname]: what stands before the last separator, without its
    trailing separators unless it consists of separators only. The loop
    below is [head.rstrip(sep)]. *)
Fixpoint rstrip_sep (s : string) : string :=
  match s with
  | EmptyString => EmptyString
  | String c s' =>
      match rstrip_sep s' with
      | EmptyString => if Ascii.eqb c "/"%char then EmptyString
                       else String c EmptyString
      | r => String c r
      end
  end.

Definition dirname (p : string) : string :=
  let i := rfind "/"%char p + 1 in
  let head := slice p 0 i in
  match rstrip_sep head with
  | EmptyString => head
  | stripped => stripped
  end.

(** ** Text files *)

Definition CR : ascii := "013"%char.
Definition LF : ascii := "010"%char.

(** Reading in text mode with the default [newline=None]: the line ends
    [\r\n] and [\r] arrive as [\n]. *)
Fixpoint universal_newlines (s : string) : string :=
  match s with
  | EmptyString => EmptyString
  | String c s' =>
      if Ascii.eqb c CR then
        match s' with
        | String d s'' =>
            if Ascii.eqb d LF then String LF (universal_newlines s'')
            else String LF (universal_newlines s')
        | EmptyString => String LF EmptyString
        end
      else String c (universal_newlines s')
  end.

(** [f.read(n)] on what is left of the file: the text read and the rest.
    A negative [n] reads everything. *)
Definition file_read (n : Z) (rest : string) : string * string :=
  if n <? 0 then (rest, EmptyString)
  else (string_take (Z.to_nat n) rest, string_drop (Z.to_nat n) rest).

(** [iter(lambda: f.read(chunk_size), "")]: the chunks up to the first
    empty read. *)
Fixpoint read_chunks (fuel : nat) (chunk_size : Z) (rest : string)
    : list string :=
  match fuel with
  | O => []
  | S fuel' =>
      let '(chunk, rest') := file_read chunk_size rest in
      if String.eqb chunk EmptyString then []
      else chunk :: read_chunks fuel' chunk_size rest'
  end.

(** ["".join(chunks)] *)
Definition join (chunks : list string) : string :=
  foldr String.append EmptyString chunks.

(** One more read than there are characters reaches the empty read. *)
Definition read_in_chunks (chunk_size : Z) (text : string) : string :=
  join (read_chunks (S (String.length text)) chunk_size text).

(** ** The file system *)

Inductive node :=
  | File (content : string)
  | Dir.

Abbreviation filesystem := (gmap string node).

Definition quoted (path : string) : string := "'" +:+ path +:+ "'".

Definition no_such_file (path : string) : exn :=
  MkExn FileNotFoundErrorC
    ("[Errno 2] No such file or directory: " +:+ quoted path).

Definition is_a_directory (path : string) : exn :=
  MkExn IsADirectoryErrorC ("[Errno 21] Is a directory: " +:+ quoted path).

Definition not_a_directory (path : string) : exn :=
  MkExn NotADirectoryErrorC ("[Errno 20] Not a directory: " +:+ quoted path).

(** [open(path, "r")]: the text the handle will deliver. *)
Definition open_read (fs : filesystem) (path : string) : result string :=
  match fs !! path with
  | None => Raise (no_such_file path)
  | Some Dir => Raise (is_a_directory path)
  | Some (File content) => Ok (universal_newlines content)
  end.

(** The directory a new file would be created in: the working directory
    and the root always exist. *)
Definition parent_check (fs : filesystem) (path : string) : result unit :=
  let d := dirname path in
  if String.eqb d EmptyString || String.eqb d "/" then Ok tt
  else match fs !! d with
       | Some Dir => Ok tt
       | Some (File _) => Raise (not_a_directory path)
       | None => Raise (no_such_file path)
       end.

(** [open(path, mode)] for [mode] in ["w"], ["a"]: the file exists
    afterwards, emptied by ["w"]. *)
Definition open_write (fs : filesystem) (path mode : string)
    : result filesystem :=
  _ ← parent_check fs path;
  match fs !! path with
  | Some Dir => Raise (is_a_directory path)
  | Some (File content) =>
      if String.eqb mode "a" then Ok fs
      else Ok (<[path := File EmptyString]> fs)
  | None => Ok (<[path := File EmptyString]> fs)
  end.

(** [f.write(text)] on a handle opened by [open_write]: the text goes to
    the end of the file, its line ends as they are (no translation on
    POSIX, and none with [newline=""]). *)
Definition file_write (fs : filesystem) (path text : string) : filesystem :=
  match fs !! path with
  | Some (File content) => <[path := File (content +:+ text)]> fs
  | _ => fs
  end.

(** The text of the file at a path; nothing where there is no file. *)
Definition text_at (fs : filesystem) (path : string) : string :=
  match fs !! path with
  | Some (File content) => content
  | _ => EmptyString
  end.

(** [os.path.exists] *)
Definition path_exists (fs : filesystem) (path : string) : bool :=
  bool_decide (is_Some (fs !! path)).

(** Whether the character stands somewhere in the string. *)
Fixpoint occurs (c : ascii) (s : string) : bool :=
  match s with
  | EmptyString => false
  | String a s' => Ascii.eqb a c || occurs c s'
  end.

(** ** [str.replace] and [shutil.copy] *)

(** [new] before every character and at the end: what [replace] does
    with an empty [old]. *)
Fixpoint interleave (new s : string) : string :=
  match s with
  | EmptyString => new
  | String c s' => new +:+ String c (interleave new s')
  end.

(** The occurrences of a non-empty [old] are replaced from the left and
    do not overlap: [skip] characters of the occurrence just replaced
    are still to be passed over. *)
Fixpoint replace_from (old new : string) (skip : nat) (s : string) : string :=
  match s with
  | EmptyString => EmptyString
  | String c s' =>
      match skip with
      | S k => replace_from old new k s'
      | O =>
          if String.prefix old s
          then new +:+ replace_from old new (String.length old - 1) s'
          else String c (replace_from old new 0 s')
      end
  end.

(** [s.replace(old, new)] *)
Definition str_replace (s old new : string) : string :=
  match old with
  | EmptyString => interleave new s
  | _ => replace_from old new 0 s
  end.

(** [os.path.basename] and [os.path.join] of [posixpath]. *)
Definition basename (p : string) : string :=
  string_drop (Z.to_nat (rfind "/"%char p + 1)) p.

Definition ends_with_sep (a : string) : bool :=
  rfind "/"%char a + 1 =? Z.of_nat (String.length a).

Definition path_join (a b : string) : string :=
  if String.prefix "/" b then b
  else if String.eqb a EmptyString || ends_with_sep a then a +:+ b
  else a +:+ "/" +:+ b.

(** How [shutil.copy] ends: the copy is made, or source and destination
    are the same file ([SameFileError]), or another exception is raised. *)
Inductive copy_outcome :=
  | Copied (fs : filesystem)
  | SameFile
  | CopyFailed (e : exn).

(** [shutil.copyfile]: two paths are the same file when they are the same
    path and the file is there (links are not modelled); the source is
    opened first, in binary mode, then the destination. *)
Definition copyfile (fs : filesystem) (src dst : string) : copy_outcome :=
  if bool_decide (src = dst) && path_exists fs src then SameFile
  else
    match fs !! src with
    | None => CopyFailed (no_such_file src)
    | Some Dir => CopyFailed (is_a_directory src)
    | Some (File content) =>
        match open_write fs dst "w" with
        | Raise e => CopyFailed e
        | Ok fs1 => Copied (file_write fs1 dst content)
        end
    end.

(** [shutil.copy]: into a directory the copy keeps the name of the
    source. *)
Definition shutil_copy (fs : filesystem) (src dst : string) : copy_outcome :=
  let dst :=
    match fs !! dst with
    | Some Dir => path_join dst (basename src)
    | _ => dst
    end in
  copyfile fs src dst.

(** ** The readers and writers

    The library functions the module calls are the variables of the
    section. [json_loads] gives the parsed value or the text of the
    [JSONDecodeError]; [json_dump] and [csv_writerows] give what reached
    the file and the exception that stopped them, if one did;
    [csv_reader] gives the rows of a text; [send] is the network, one
    [requests] call per method. *)

Record response := MkResponse {
  status_code : Z;
  json_body : result pyobj
}.

Definition row := list string.

(** The elements of what [read_csv] returns: the header is a row, every
    other element a list of rows. *)
Inductive csv_item :=
  | HeaderRow (header : row)
  | RowGroup (rows : list row).

Inductive text_content :=
  | Whole (text : string)
  | Lines (lines : list string).

Inductive content :=
  | TextContent (c : text_content)
  | CsvTable (data : list csv_item)
  | JsonValue (v : pyobj).

(** What is handed to [json.load]: an open file, or a [str]. *)
Inductive load_arg :=
  | Handle (text : string)
  | Str (s : string).

Definition zero_division : exn :=
  MkExn ZeroDivisionErrorC "integer modulo by zero".

(** [a % b] on [int]: the sign of the result is the sign of [b], as with
    [Z.modulo]; a zero [b] raises. *)
Definition py_mod (a b : Z) : result Z :=
  if b =? 0 then Raise zero_division else Ok (a mod b).

Definition index_error : exn := MkExn IndexErrorC "list index out of range".

(** [data[-1].append(row)] *)
Fixpoint append_to_last (data : list (list row)) (r : row)
    : result (list (list row)) :=
  match data with
  | [] => Raise index_error
  | [g] => Ok [g ++ [r]]
  | g :: data' => rest ← append_to_last data' r; Ok (g :: rest)
  end.

(** The loop [for i, row in enumerate(reader)] of [read_csv], from the
    index [i] and the groups [data] built so far. *)
Fixpoint group_rows (chunk_size i : Z) (reader : list row)
    (data : list (list row)) : result (list (list row)) :=
  match reader with
  | [] => Ok data
  | r :: reader' =>
      m ← py_mod i chunk_size;
      let data := if m =? 0 then data ++ [[]] else data in
      data ← append_to_last data r;
      group_rows chunk_size (i + 1) reader' data
  end.

(** The vocabulary of the specification of the row groups: the least
    number of groups of [k] rows that hold [n] rows, and the shape of a
    list of groups in which every group is full except perhaps the last,
    which is not empty. *)
Definition ceil_div (n k : Z) : Z := (n + k - 1) / k.

Definition full_group (k : Z) (g : list row) : Prop := Z.of_nat (length g) = k.

Definition chunked (k : Z) (groups : list (list row)) : Prop :=
  groups = []
  \/ exists full g, groups = full ++ [g]
                   /\ Forall (full_group k) full
                   /\ 1 <= Z.of_nat (length g) <= k.

Definition unsupported : exn := MkExn ExceptionC "".

Definition str_has_no_read : exn :=
  MkExn AttributeErrorC "'str' object has no attribute 'read'".

Definition file_not_found (e : exn) : exn :=
  MkExn ExceptionC ("file not found error : " +:+ exn_str e).

Definition json_decode_error (e : exn) : exn :=
  MkExn ExceptionC ("json decode error : " +:+ exn_str e).

(** [v[key]] for a [str] key. *)
Definition getitem (v : pyobj) (key : string) : result pyobj :=
  match v with
  | PDict items =>
      match list_find (fun kv => fst kv = key) items with
      | Some (_, (_, x)) => Ok x
      | None => Raise (MkExn KeyErrorC (quoted key))
      end
  | _ => Raise (MkExn TypeErrorC "object is not subscriptable by str")
  end.

Inductive HashChangeKind := GENERAL | EXAMPLE.

Definition HashChangeKind_value (k : HashChangeKind) : string :=
  match k with
  | GENERAL => "general"
  | EXAMPLE => "example"
  end.

(** The [kind] argument: a member of [HashChangeKind], or anything else. *)
Inductive kind_arg :=
  | Kind (k : HashChangeKind)
  | NotAKind (v : pyarg).

Record ReplaceInfo := MkReplaceInfo { old_str : string; new_str : string }.

(** ** Reference instances of the library functions

    Small executable stand-ins on which the properties below are run:
    a decoder for the JSON texts made of objects, arrays, strings without
    escapes, integers and the three literals; a CSV reader for texts
    without quoted fields; a server that answers every request. *)

Definition dquote : ascii := "034"%char.

Definition is_space (c : ascii) : bool :=
  Ascii.eqb c " "%char || Ascii.eqb c LF || Ascii.eqb c CR
  || Ascii.eqb c "009"%char.

Fixpoint skip_spaces (s : string) : string :=
  match s with
  | String c s' => if is_space c then skip_spaces s' else s
  | EmptyString => s
  end.

Definition digit_of (c : ascii) : option Z :=
  let n := Z.of_nat (nat_of_ascii c) in
  if (48 <=? n) && (n <=? 57) then Some (n - 48) else None.

Fixpoint scan_digits (s : string) (acc : Z) : Z * string :=
  match s with
  | String c s' =>
      match digit_of c with
      | Some d => scan_digits s' (10 * acc + d)
      | None => (acc, s)
      end
  | EmptyString => (acc, s)
  end.

(** The characters up to the closing quote, and what follows it. *)
Fixpoint scan_string (s : string) : option (string * string) :=
  match s with
  | EmptyString => None
  | String c s' =>
      if Ascii.eqb c dquote then Some (EmptyString, s')
      else if Ascii.eqb c "\"%char then None
      else '(str, r) ← scan_string s'; Some (String c str, r)
  end.

Fixpoint strip_prefix (pre s : string) : option string :=
  match pre, s with
  | EmptyString, _ => Some s
  | String a pre', String b s' =>
      if Ascii.eqb a b then strip_prefix pre' s' else None
  | _, EmptyString => None
  end.

Definition scan_literal (s : string) : option (pyobj * string) :=
  match strip_prefix "true" s, strip_prefix "false" s, strip_prefix "null" s
  with
  | Some r, _, _ => Some (PBool true, r)
  | _, Some r, _ => Some (PBool false, r)
  | _, _, Some r => Some (PNone, r)
  | _, _, _ => None
  end.

Definition scan_number (s : string) : option (pyobj * string) :=
  match s with
  | String c s' =>
      if Ascii.eqb c "-"%char then
        match s' with
        | String d _ =>
            match digit_of d with
            | Some _ => let '(n, r) := scan_digits s' 0 in Some (PInt (- n), r)
            | None => None
            end
        | EmptyString => None
        end
      else match digit_of c with
           | Some _ => let '(n, r) := scan_digits s 0 in Some (PInt n, r)
           | None => None
           end
  | EmptyString => None
  end.

(** What the decoder is in the middle of: a value, the elements of an
    array, or the members of an object. *)
Inductive decoding :=
  | AValue
  | Elements (acc : list pyobj)
  | Members (acc : list (string * pyobj)).

Fixpoint decode (fuel : nat) (m : decoding) (s : string)
    : option (pyobj * string) :=
  match fuel with
  | O => None
  | S fuel =>
      match m with
      | AValue =>
          match skip_spaces s with
          | String "{"%char r =>
              match skip_spaces r with
              | String "}"%char r' => Some (PDict [], r')
              | _ => decode fuel (Members []) r
              end
          | String "["%char r =>
              match skip_spaces r with
              | String "]"%char r' => Some (PList [], r')
              | _ => decode fuel (Elements []) r
              end
          | String c r as s' =>
              if Ascii.eqb c dquote then
                '(str, r') ← scan_string r; Some (PStr str, r')
              else match scan_number s' with
                   | Some v => Some v
                   | None => scan_literal s'
                   end
          | EmptyString => None
          end
      | Elements acc =>
          '(v, r) ← decode fuel AValue s;
          match skip_spaces r with
          | String ","%char r' => decode fuel (Elements (acc ++ [v])) r'
          | String "]"%char r' => Some (PList (acc ++ [v]), r')
          | _ => None
          end
      | Members acc =>
          match skip_spaces s with
          | String c r =>
              if Ascii.eqb c dquote then
                '(k, r1) ← scan_string r;
                match skip_spaces r1 with
                | String ":"%char r2 =>
                    '(v, r3) ← decode fuel AValue r2;
                    match skip_spaces r3 with
                    | String ","%char r4 =>
                        decode fuel (Members (acc ++ [(k, v)])) r4
                    | String "}"%char r4 => Some (PDict (acc ++ [(k, v)]), r4)
                    | _ => None
                    end
                | _ => None
                end
              else None
          | EmptyString => None
          end
      end
  end.

Definition fragment_loads (s : string) : pyobj + string :=
  match decode (S (String.length s)) AValue s with
  | Some (v, r) =>
      match skip_spaces r with
      | EmptyString => inl v
      | _ => inr "Extra data"
      end
  | None => inr "Expecting value"
  end.

(** The pieces of [s] between the occurrences of [sep]; [cur] is the
    piece being read, reversed. *)
Fixpoint split_on (sep : ascii) (s : string) (cur : string) : list string :=
  match s with
  | EmptyString => [String.rev cur]
  | String c s' =>
      if Ascii.eqb c sep then String.rev cur :: split_on sep s' EmptyString
      else split_on sep s' (String c cur)
  end.

(** One row per line, one field per comma; an empty line is an empty
    row, and the text after the last line end is a row when it is not
    empty. *)
Definition plain_csv_reader (text : string) : list row :=
  let fields line :=
    match line with
    | EmptyString => []
    | _ => split_on ","%char line EmptyString
    end in
  let lines := split_on LF text EmptyString in
  match last lines with
  | Some EmptyString => map fields (removelast lines)
  | _ => map fields lines
  end.

(** A server that answers [200] with the parameters it was sent. *)
Definition echo_server (m : RequestMethods) (url : string) (timeout : Z)
    (headers params : pyobj) : result response :=
  Ok (MkResponse 200 (Ok (PDict [("result", params)]))).

(** The document [{"a": [1,2,3]}] and the malformed [{a:}]. *)
Definition sample_document : string :=
  "{" +:+ String dquote "a" +:+ String dquote ": [1,2,3]}".

Definition malformed_document : string := "{a:}".

Definition sample_value : pyobj :=
  PDict [("a", PList [PInt 1; PInt 2; PInt 3])].

(** A table of a header and three rows, and a table of a header alone. *)
Definition sample_header : row := ["name"; "qty"].

Definition sample_rows : list row := [["a"; "1"]; ["b"; "2"]; ["c"; "3"]].

Definition header_text : string := "name,qty" +:+ String LF EmptyString.

Definition sample_table : string :=
  header_text +:+ "a,1" +:+ String LF "b,2" +:+ String LF "c,3"
  +:+ String LF EmptyString.

Definition sample_files : filesystem :=
  list_to_map
    [ ("good.json", File sample_document);
      ("bad.json", File malformed_document);
      ("table.csv", File sample_table);
      ("header.csv", File header_text);
      ("notes.txt", File "hello") ].

(** A digest of the right length, the same for every text, and a
    [makedirs] that creates one directory in an existing one. *)
Definition constant_digest (text : string) : string :=
  "d41d8cd98f00b204e9800998ecf8427e".

Definition single_mkdir (fs : filesystem) (path : string)
    : filesystem * result unit :=
  match parent_check fs path with
  | Raise e => (fs, Raise e)
  | Ok _ => (<[path := Dir]> fs, Ok tt)
  end.

(** A directory with a file in it, an empty file, and a file with a
    Windows line end. *)
Definition sample_tree : filesystem :=
  list_to_map
    [ ("docs", Dir);
      ("docs/a.txt", File "alpha beta alpha");
      ("empty.csv", File EmptyString);
      ("crlf.txt", File ("one" +:+ String CR (String LF "two"))) ].

Definition sample_replacements : list ReplaceInfo :=
  [ MkReplaceInfo "alpha" "beta"; MkReplaceInfo "beta" "gamma" ].

(** Writers to go with the reference readers: JSON text with the
    separators of [json.dump], CSV rows ended by [\r\n] as [csv.writer]
    ends them, and a [json.dump] that is stopped after its first
    character. *)
Fixpoint encode_json (v : pyobj) : string :=
  match v with
  | PNone => "null"
  | PBool true => "true"
  | PBool false => "false"
  | PInt z => pretty z
  | PStr s => String dquote s +:+ String dquote EmptyString
  | PList l =>
      "[" +:+
      (fix elements (l : list pyobj) : string :=
         match l with
         | [] => EmptyString
         | [x] => encode_json x
         | x :: l' => encode_json x +:+ ", " +:+ elements l'
         end) l
      +:+ "]"
  | PDict items =>
      "{" +:+
      (fix members (items : list (string * pyobj)) : string :=
         match items with
         | [] => EmptyString
         | [(k, x)] =>
             String dquote k +:+ String dquote ": " +:+ encode_json x
         | (k, x) :: items' =>
             String dquote k +:+ String dquote ": " +:+ encode_json x
             +:+ ", " +:+ members items'
         end) items
      +:+ "}"
  end.

Definition fragment_dump (v : pyobj) : string * option exn :=
  (encode_json v, None).

Definition interrupted_dump (v : pyobj) : string * option exn :=
  ("{", Some (MkExn TypeErrorC "Object of type set is not JSON serializable")).

Definition csv_line (fields : list string) : string :=
  match fields with
  | [] => EmptyString
  | f :: fs => foldl (fun line g => line +:+ "," +:+ g) f fs
  end +:+ String CR (String LF EmptyString).

Definition plain_csv_writerows (data : pyobj) : string * option exn :=
  match data with
  | PList rows =>
      (foldr (fun r text =>
                match r with
                | PList fields =>
                    csv_line (map (fun f => match f with
                                            | PStr s => s
                                            | _ => EmptyString
                                            end) fields) +:+ text
                | _ => text
                end) EmptyString rows, None)
  | _ => (EmptyString, Some (MkExn TypeErrorC "object is not iterable"))
  end.

Definition sample_rows_data : pyobj :=
  PList (map (fun r => PList (map PStr r)) sample_rows).

(** A server that answers [404], and one that cannot be reached. *)
Definition missing_server (m : RequestMethods) (url : string) (timeout : Z)
    (headers params : pyobj) : result response :=
  Ok (MkResponse 404 (Ok (PDict [("detail", PStr "Not Found")]))).

Definition unreachable_server (m : RequestMethods) (url : string)
    (timeout : Z) (headers params : pyobj) : result response :=
  Raise (MkExn RequestsConnectionErrorC "Connection refused").

(** The lines of a text ended by [\n]; the text after the last line end
    is a line when it is not empty. *)
Definition plain_splitlines (text : string) : list string :=
  let lines := split_on LF text EmptyString in
  match last lines with
  | Some EmptyString => removelast lines
  | _ => lines
  end.

Section Library.

Variable splitlines : string -> list string.
Variable py_str : pyobj -> string.
Variable json_loads : string -> pyobj + string.
Variable json_dump : pyobj -> string * option exn.
Variable csv_reader : string -> list row.
Variable csv_writerows : pyobj -> string * option exn.
Variable send :
  RequestMethods -> string -> Z -> pyobj -> pyobj -> result response.

(** [json.load(fp)] is [json.loads(fp.read())]. *)
Definition json_load (fp : load_arg) : result pyobj :=
  match fp with
  | Handle text =>
      match json_loads text with
      | inl v => Ok v
      | inr msg => Raise (MkExn JSONDecodeErrorC msg)
      end
  | Str _ => Raise str_has_no_read
  end.

Definition read_json (fs : filesystem) (file_path : string) (chunk_size : Z)
    : result pyobj :=
  try_except
    (f ← open_read fs file_path;
     if chunk_size =? 0 then json_load (Handle f)
     else json_load (Str (read_in_chunks chunk_size f)))
    [ (FileNotFoundErrorC, fun e => Raise (file_not_found e));
      (JSONDecodeErrorC, fun e => Raise (json_decode_error e)) ].

Definition read_file (fs : filesystem) (file_path : string)
    (read_line_by_line : bool) (chunk_size : Z) : result text_content :=
  try_except
    (f ← open_read fs file_path;
     if read_line_by_line then
       if chunk_size =? 0 then Ok (Lines (splitlines f))
       else Ok (Lines (splitlines (read_in_chunks chunk_size f)))
     else if chunk_size =? 0 then Ok (Whole f)
     else Ok (Whole (read_in_chunks chunk_size f)))
    [ (FileNotFoundErrorC, fun e => Raise (file_not_found e)) ].

Definition read_csv (fs : filesystem) (file_path : string) (chunk_size : Z)
    (has_header : bool) : result (list csv_item) :=
  try_except
    (f ← open_read fs file_path;
     let reader := csv_reader f in
     if has_header then
       match reader with
       | [] => Raise (MkExn StopIterationC "")
       | header :: reader =>
           data ← group_rows chunk_size 0 reader [];
           Ok (HeaderRow header :: map RowGroup data)
       end
     else
       data ← group_rows chunk_size 0 reader [];
       Ok (map RowGroup data))
    [ (FileNotFoundErrorC, fun e => Raise (file_not_found e)) ].

(** [mode if mode in ["a", "w"] else "w"] *)
Definition normal_mode (mode : string) : string :=
  if bool_decide (mode ∈ ["a"; "w"]) then mode else "w".

(** [with open(file_path, mode) as f: <write out>] followed by
    [return True]: the file system afterwards, and [True] or what was
    raised. What was written before an exception stays in the file. *)
Definition write_with (fs : filesystem) (file_path mode : string)
    (out : string * option exn) : filesystem * result bool :=
  match open_write fs file_path mode with
  | Raise e => (fs, Raise e)
  | Ok fs1 =>
      let fs2 := file_write fs1 file_path (fst out) in
      match snd out with
      | None => (fs2, Ok true)
      | Some e => (fs2, Raise e)
      end
  end.

(** The two clauses every writer ends with. *)
Definition return_false : list (exn_class * (exn -> result bool)) :=
  [ (FileNotFoundErrorC, fun _ => Ok false);
    (ExceptionC, fun _ => Ok false) ].

Definition try_write (m : filesystem * result bool)
    : filesystem * result bool :=
  (fst m, try_except (snd m) return_false).

Definition write_json (fs : filesystem) (file_path : string) (data : pyobj)
    (mode : string) : filesystem * result bool :=
  let mode := normal_mode mode in
  try_write (write_with fs file_path mode (json_dump data)).

Definition write_file (fs : filesystem) (file_path : string) (data : pyobj)
    (mode : string) : filesystem * result bool :=
  let data := match data with PStr s => s | _ => py_str data end in
  let mode := normal_mode mode in
  try_write (write_with fs file_path mode (data, None)).

Definition write_csv (fs : filesystem) (file_path : string) (data : pyobj)
    (mode : string) : filesystem * result bool :=
  let mode := normal_mode mode in
  try_write (write_with fs file_path mode (csv_writerows data)).

Definition read_file_by_extension (fs : filesystem) (file_path : string)
    (read_line_by_line : bool) : result content :=
  let extension := Value (PStr (get_extension file_path)) in
  if matches_member extension (Extension TXT) then
    TextContent <$> read_file fs file_path read_line_by_line 0
  else if matches_member extension (Extension CSV) then
    CsvTable <$> read_csv fs file_path 1000 false
  else if matches_member extension (Extension JSON) then
    JsonValue <$> read_json fs file_path 0
  else if matches_member extension (Extension LOG) then
    TextContent <$> read_file fs file_path read_line_by_line 0
  else if matches_member extension (Extension PY) then
    TextContent <$> read_file fs file_path read_line_by_line 0
  else Raise unsupported.

Definition write_file_by_extension (fs : filesystem) (file_path : string)
    (data : pyobj) (mode : string) : filesystem * result bool :=
  let extension := Value (PStr (get_extension file_path)) in
  if matches_member extension (Extension TXT) then
    write_file fs file_path data mode
  else if matches_member extension (Extension CSV) then
    write_csv fs file_path data mode
  else if matches_member extension (Extension JSON) then
    write_json fs file_path data mode
  else if matches_member extension (Extension LOG) then
    write_file fs file_path data mode
  else if matches_member extension (Extension PY) then
    write_file fs file_path data mode
  else (fs, Raise unsupported).

(** ** The request helper *)

(** ["{}://{}:{}/{}".format(protocol, ip, port, path)] *)
Definition format_url (protocol ip : string) (port : Z) (path : string)
    : string :=
  protocol +:+ "://" +:+ ip +:+ ":" +:+ pretty port +:+ "/" +:+ path.

Definition unsupported_method : exn :=
  MkExn ExceptionC "Do not support request method".

Definition common_request (ip : string) (port : Z) (path : string)
    (timeout : Z) (protocol : string) (headers params : pyobj)
    (method : pyarg) : result (pyobj * bool * string) :=
  let attempt : result (pyobj * bool) :=
    let url := format_url protocol ip port path in
    result ←
      (if matches_member method (RequestMethod GET) then
         send GET url timeout headers params
       else if matches_member method (RequestMethod POST) then
         send POST url timeout headers params
       else if matches_member method (RequestMethod DELETE) then
         send DELETE url timeout headers params
       else if matches_member method (RequestMethod PUT) then
         send PUT url timeout headers params
       else Raise unsupported_method);
    if status_code result =? 200 then
      body ← json_body result;
      res ← getitem body "result";
      Ok (res, true)
    else Ok (PNone, false) in
  match attempt with
  | Ok (res, is_success) => Ok (res, is_success, EmptyString)
  | Raise e =>
      handle
        [ (RequestsConnectionErrorC, fun e => Ok (PNone, false, exn_str e));
          (ConnectionRefusedErrorC, fun e => Ok (PNone, false, exn_str e));
          (RequestsReadTimeoutC, fun e => Ok (PNone, false, exn_str e));
          (ExceptionC, fun e => Ok (PNone, false, exn_str e)) ] e
  end.

(** ** Hashing, folders, copies *)

Variable md5_hexdigest : string -> string.
Variable makedirs : filesystem -> string -> filesystem * result unit.

(** [hashlib.md5(text.encode()).hexdigest()] is [md5_hexdigest text]. *)
Definition text_to_hash (text : string) (kind : kind_arg) : result string :=
  let hash_ := md5_hexdigest text in
  match kind with
  | Kind GENERAL => Ok hash_
  | Kind EXAMPLE => Ok ("ex" +:+ hash_)
  | NotAKind _ => Raise (MkExn ValueErrorC EmptyString)
  end.

(** [makedirs] gives the file system it leaves and how it ended. What
    the function prints is not modelled. *)
Definition create_folder (fs : filesystem) (path : string)
    : filesystem * result bool :=
  if negb (path_exists fs path) then
    match makedirs fs path with
    | (fs', Ok _) => (fs', Ok true)
    | (fs', Raise e) => (fs', handle [ (OSErrorC, fun e => Raise e) ] e)
    end
  else (fs, Ok false).

(** The loop over [replace_list]. *)
Definition replace_all (file_data : string) (replace_list : list ReplaceInfo)
    : string :=
  foldl (fun data replace => str_replace data (old_str replace) (new_str replace))
    file_data replace_list.

(** [replace_list] is [None] or a list; both [None] and the empty list
    are false in [if replace_list]. *)
Definition copy_and_replace_file (fs : filesystem)
    (original_file_path copy_file_path : string)
    (replace_list : option (list ReplaceInfo)) : filesystem * result bool :=
  match shutil_copy fs original_file_path copy_file_path with
  | SameFile => (fs, Ok false)
  | CopyFailed e => (fs, Raise e)
  | Copied fs1 =>
      match replace_list with
      | Some (r :: rs) =>
          match open_read fs1 copy_file_path with
          | Raise e => (fs1, Raise e)
          | Ok file_data =>
              let file_data := replace_all file_data (r :: rs) in
              match open_write fs1 copy_file_path "w" with
              | Raise e => (fs1, Raise e)
              | Ok fs2 => (file_write fs2 copy_file_path file_data, Ok true)
              end
          end
      | _ => (fs1, Ok true)
      end
  end.

(** * Properties *)

(** ** Exceptions *)

Lemma isinstance_Exception (e : exn) : isinstance e ExceptionC = true.
Proof. destruct e as [[] msg]; reflexivity. Qed.

Lemma file_not_found_not_decode_error (e1 e2 : exn) :
  file_not_found e1 <> json_decode_error e2.
Proof. by intros [=]. Qed.

Lemma zero_division_not_file_error (e : exn) :
  zero_division <> file_not_found e.
Proof. unfold zero_division, file_not_found. congruence. Qed.

(** ** Value patterns *)

Lemma matches_member_value (v : pyobj) (m : enum_member) :
  matches_member (Value v) m = false.
Proof. reflexivity. Qed.

Lemma matches_member_iff (subject : pyarg) (m : enum_member) :
  matches_member subject m = true <-> subject = Member m.
Proof.
  destruct subject as [v | m']; simpl.
  - split; [discriminate | congruence].
  - rewrite bool_decide_eq_true. split; congruence.
Qed.

(** ** Dispatch on the extension *)

(** The subject of both [match] statements is the [str] that
    [get_extension] returns, the patterns are members of [ExtensionType]:
    no pattern matches, whatever the path. *)
Lemma read_file_by_extension_raises (fs : filesystem) (file_path : string)
    (read_line_by_line : bool) :
  read_file_by_extension fs file_path read_line_by_line = Raise unsupported.
Proof. reflexivity. Qed.

Lemma write_file_by_extension_raises (fs : filesystem) (file_path : string)
    (data : pyobj) (mode : string) :
  write_file_by_extension fs file_path data mode = (fs, Raise unsupported).
Proof. reflexivity. Qed.

Lemma get_extension_of_member (e : ExtensionType) :
  get_extension ("data" +:+ ExtensionType_value e) = ExtensionType_value e
  /\ get_extension ("missing/out" +:+ ExtensionType_value e)
     = ExtensionType_value e.
Proof. destruct e; split; reflexivity. Qed.

(** C1: a path with a supported extension must reach the reader or writer
    of its format. It does not: for each of the five extensions the path
    [data<ext>] has that extension, and both dispatchers raise the bare
    [Exception] of the default case, with the file system untouched. On
    the file [notes.txt] of the sample files the text reader returns the
    content, the dispatcher raises. *)
Theorem dispatch_raises_on_supported_extension (e : ExtensionType)
    (fs : filesystem) (read_line_by_line : bool) (data : pyobj)
    (mode : string) :
  let file_path := "data" +:+ ExtensionType_value e in
  get_extension file_path = ExtensionType_value e
  /\ read_file_by_extension fs file_path read_line_by_line
     = Raise unsupported
  /\ write_file_by_extension fs file_path data mode
     = (fs, Raise unsupported)
  /\ read_file sample_files "notes.txt" false 0 = Ok (Whole "hello")
  /\ read_file_by_extension sample_files "notes.txt" false
     = Raise unsupported.
Proof.
  intros file_path. split; [apply get_extension_of_member|].
  split; [apply read_file_by_extension_raises|].
  split; [apply write_file_by_extension_raises|].
  split; [vm_compute; reflexivity|].
  apply read_file_by_extension_raises.
Qed.

(** ** Writers *)

Lemma try_except_return_false (e : exn) :
  try_except (Raise e) return_false = Ok false.
Proof.
  simpl. destruct (isinstance e FileNotFoundErrorC); [reflexivity|].
  by rewrite isinstance_Exception.
Qed.

Lemma try_write_total (m : filesystem * result bool) :
  exists b, snd (try_write m) = Ok b.
Proof.
  destruct m as [fs [b | e]]; unfold try_write; cbn [fst snd].
  - by exists b.
  - exists false. apply try_except_return_false.
Qed.

Lemma write_with_open_fails (fs : filesystem) (file_path mode : string)
    (out : string * option exn) (e : exn) :
  open_write fs file_path mode = Raise e ->
  try_write (write_with fs file_path mode out) = (fs, Ok false).
Proof.
  intros H. unfold write_with, try_write. rewrite H. cbn [fst snd].
  by rewrite try_except_return_false.
Qed.

Lemma open_write_missing_parent (fs : filesystem) (file_path mode : string) :
  parent_check fs file_path = Raise (no_such_file file_path) ->
  open_write fs file_path mode = Raise (no_such_file file_path).
Proof. intros H. unfold open_write. by rewrite H. Qed.

(** No writer raises: whatever goes wrong while the file is opened or
    written, the caller gets a boolean. *)
Lemma writers_return_bool (fs : filesystem) (file_path : string)
    (data : pyobj) (mode : string) :
  (exists b, snd (write_file fs file_path data mode) = Ok b)
  /\ (exists b, snd (write_json fs file_path data mode) = Ok b)
  /\ (exists b, snd (write_csv fs file_path data mode) = Ok b).
Proof. repeat split; apply try_write_total. Qed.

(** A directory that does not exist: the three writers leave the file
    system as it is and return [False]. *)
Lemma writers_missing_parent (fs : filesystem) (file_path : string)
    (data : pyobj) (mode : string) :
  parent_check fs file_path = Raise (no_such_file file_path) ->
  write_file fs file_path data mode = (fs, Ok false)
  /\ write_json fs file_path data mode = (fs, Ok false)
  /\ write_csv fs file_path data mode = (fs, Ok false).
Proof.
  intros H.
  repeat split; unfold write_file, write_json, write_csv;
    eapply write_with_open_fails, open_write_missing_parent, H.
Qed.

Lemma parent_check_empty (e : ExtensionType) :
  let file_path := "missing/out" +:+ ExtensionType_value e in
  parent_check (∅ : filesystem) file_path = Raise (no_such_file file_path).
Proof. destruct e; reflexivity. Qed.

(** C4: on a path whose directory does not exist every writer must return
    [False]. The three primitives do; [write_file_by_extension] raises
    the [Exception] of its default case instead, for each supported
    extension. *)
Theorem write_by_extension_missing_parent_raises (e : ExtensionType)
    (data : pyobj) (mode : string) :
  let file_path := "missing/out" +:+ ExtensionType_value e in
  get_extension file_path = ExtensionType_value e
  /\ parent_check (∅ : filesystem) file_path = Raise (no_such_file file_path)
  /\ write_file ∅ file_path data mode = (∅, Ok false)
  /\ write_json ∅ file_path data mode = (∅, Ok false)
  /\ write_csv ∅ file_path data mode = (∅, Ok false)
  /\ write_file_by_extension ∅ file_path data mode = (∅, Raise unsupported).
Proof.
  intros file_path. split; [apply get_extension_of_member|].
  split; [apply parent_check_empty|].
  pose proof (writers_missing_parent ∅ file_path data mode
                (parent_check_empty e)) as (Hf & Hj & Hc).
  repeat split; try assumption.
Qed.

(** What the text writer stores is what the text reader returns, line
    ends apart: the primitives round-trip where the dispatchers do not. *)
Lemma write_file_read_file (fs : filesystem) (file_path text : string) :
  parent_check fs file_path = Ok tt ->
  fs !! file_path <> Some Dir ->
  let fs' := fst (write_file fs file_path (PStr text) "w") in
  snd (write_file fs file_path (PStr text) "w") = Ok true
  /\ fs' !! file_path = Some (File text)
  /\ read_file fs' file_path false 0 = Ok (Whole (universal_newlines text)).
Proof.
  intros Hparent Hdir.
  assert (Hopen : open_write fs file_path "w"
                  = Ok (<[file_path := File EmptyString]> fs)).
  { unfold open_write. rewrite Hparent. simpl.
    destruct (fs !! file_path) as [[c|]|]; congruence. }
  unfold write_file, try_write, write_with.
  change (normal_mode "w") with "w". rewrite Hopen. cbn [fst snd].
  unfold file_write. rewrite lookup_insert_eq. cbn [fst snd try_except].
  split; [reflexivity|]. rewrite lookup_insert_eq.
  split; [reflexivity|].
  unfold read_file, open_read. by rewrite lookup_insert_eq.
Qed.

(** C2: writing through the dispatcher and reading back must return the
    content. For each supported extension the write raises and stores
    nothing, and the read raises as well: no content comes back. *)
Theorem write_then_read_by_extension_raises (e : ExtensionType)
    (fs : filesystem) (data : pyobj) (read_line_by_line : bool) :
  let file_path := "data" +:+ ExtensionType_value e in
  let written := write_file_by_extension fs file_path data "w" in
  get_extension file_path = ExtensionType_value e
  /\ snd written = Raise unsupported
  /\ fst written = fs
  /\ read_file_by_extension (fst written) file_path read_line_by_line
     = Raise unsupported
  /\ forall c : content,
       read_file_by_extension (fst written) file_path read_line_by_line
       <> Ok c.
Proof.
  intros file_path written. split; [apply get_extension_of_member|].
  subst written. rewrite write_file_by_extension_raises. cbn [fst snd].
  rewrite read_file_by_extension_raises. repeat split; congruence.
Qed.

(** ** Byte sizes *)

(** Replaces the closed integer constants of a goal on rationals by
    their values, and the unit tests of the converters by their
    outcome. *)
Ltac eval_constants :=
  cbv [unit_value bytes_per_unit is_binary unit_steps];
  repeat match goal with
  | |- context [inject_Z ?z] =>
      let a := eval vm_compute in (inject_Z z) in
      progress change (inject_Z z) with a
  | |- context [Z.ltb ?a ?b] =>
      let c := eval vm_compute in (Z.ltb a b) in
      progress change (Z.ltb a b) with c
  end;
  cbv iota.

Lemma bytes_per_unit_positive (u : MemoryUnit) : 0 < bytes_per_unit u.
Proof. destruct u; reflexivity. Qed.


(** From a decimal unit to bytes: the product with the size of the unit. *)
Lemma convert_to_bytes_decimal (x : Q) (u : MemoryUnit) :
  is_binary u = false ->
  exists q, convert_to_bytes (Number x) u true = Ok (AsNumber q)
            /\ (q == x * inject_Z (bytes_per_unit u))%Q.
Proof.
  destruct u; try discriminate; intros _;
    eexists; (split; [reflexivity|]); reflexivity.
Qed.

(** From a binary unit to bytes: one factor of 1024 is missing, the
    exponent being [value - 6] where the converse uses [value - 5]. *)
Lemma convert_to_bytes_binary (x : Q) (u : MemoryUnit) :
  is_binary u = true ->
  exists q, convert_to_bytes (Number x) u true = Ok (AsNumber q)
            /\ (q * 1024 == x * inject_Z (bytes_per_unit u))%Q.
Proof.
  destruct u; try discriminate; intros _;
    eexists; (split; [reflexivity|]); eval_constants; ring.
Qed.

Lemma convert_data_size_decimal (x : Q) (u : MemoryUnit) :
  is_binary u = false ->
  exists q, convert_data_size (Number x) u u true = Ok (AsNumber q)
            /\ (q == x)%Q.
Proof.
  destruct u; try discriminate; intros _;
    eexists; (split; [reflexivity|]); eval_constants; field.
Qed.

Lemma convert_data_size_binary (x : Q) (u : MemoryUnit) :
  is_binary u = true ->
  exists q, convert_data_size (Number x) u u true = Ok (AsNumber q)
            /\ (q * 1024 == x)%Q.
Proof.
  destruct u; try discriminate; intros _;
    eexists; (split; [reflexivity|]); eval_constants; field.
Qed.

(** C3: one [KiB] is 1024 bytes, one [MiB] is 1024 * 1024, and
    converting to bytes and back must give the size one started from.
    [convert_to_bytes(1, KiB)] is [1] and [convert_to_bytes(1, MiB)] is
    [1024]; the way there and back, which is [convert_data_size] from
    [KiB] to [KiB], gives [1/1024]. *)
Theorem convert_to_bytes_KiB_off_by_one :
  bytes_per_unit KiB = 1024
  /\ convert_to_bytes (Number 1) KiB true = Ok (AsNumber 1)
  /\ ~ (1 == 1 * inject_Z (bytes_per_unit KiB))%Q
  /\ bytes_per_unit MiB = 1024 * 1024
  /\ convert_to_bytes (Number 1) MiB true = Ok (AsNumber 1024)
  /\ ~ (1024 == 1 * inject_Z (bytes_per_unit MiB))%Q
  /\ convert_bytes (Number 1024) KiB true = Ok (AsNumber (1024 / 1024))
  /\ convert_data_size (Number 1) KiB KiB true = Ok (AsNumber (1 # 1024))
  /\ ~ (1 # 1024 == 1)%Q.
Proof. repeat split; try reflexivity; intros H; discriminate H. Qed.

(** ** The request helper *)

Lemma handle_request_error (e : exn) :
  exists msg,
    handle (A := pyobj * bool * string)
      [ (RequestsConnectionErrorC, fun e => Ok (PNone, false, exn_str e));
        (ConnectionRefusedErrorC, fun e => Ok (PNone, false, exn_str e));
        (RequestsReadTimeoutC, fun e => Ok (PNone, false, exn_str e));
        (ExceptionC, fun e => Ok (PNone, false, exn_str e)) ] e
    = Ok (PNone, false, msg).
Proof.
  exists (exn_str e). simpl.
  repeat (match goal with |- context [isinstance e ?c] =>
            destruct (isinstance e c) eqn:? end; try reflexivity).
  by rewrite isinstance_Exception in *.
Qed.

(** The request helper returns its triple whatever happens: every
    exception of the body ends in one of the four clauses. *)
Lemma common_request_returns (ip : string) (port : Z) (path : string)
    (timeout : Z) (protocol : string) (headers params : pyobj)
    (method : pyarg) :
  exists triple,
    common_request ip port path timeout protocol headers params method
    = Ok triple.
Proof.
  unfold common_request.
  match goal with |- context [match ?a with Ok _ => _ | Raise _ => _ end] =>
    destruct a as [[res ok] | e] end.
  - eauto.
  - destruct (handle_request_error e) as [msg ->]. eauto.
Qed.

(** C8, as the code has it: a method that is no member of
    [RequestMethods] reaches the default case, whose exception the last
    clause of the [try] turns into the failure triple with the text of
    the exception as message; nothing is sent and nothing propagates. *)
Theorem common_request_unsupported_method (ip : string) (port : Z)
    (path : string) (timeout : Z) (protocol : string)
    (headers params : pyobj) (method : pyarg) :
  (forall m : RequestMethods, method <> Member (RequestMethod m)) ->
  common_request ip port path timeout protocol headers params method
  = Ok (PNone, false, "Do not support request method").
Proof.
  intros Hout. unfold common_request.
  assert (Hno : forall m, matches_member method (RequestMethod m) = false).
  { intros m. destruct (matches_member method (RequestMethod m)) eqn:E;
      [|reflexivity].
    apply matches_member_iff in E. by destruct (Hout m). }
  rewrite !Hno. reflexivity.
Qed.

(** ** Row groups *)

Lemma ceil_div_is_ceiling (n k : Z) :
  0 < k -> k * (ceil_div n k - 1) < n <= k * ceil_div n k.
Proof.
  intros Hk. unfold ceil_div.
  pose proof (Z.div_mod (n + k - 1) k ltac:(lia)) as Hdm.
  pose proof (Z.mod_pos_bound (n + k - 1) k Hk) as Hb.
  lia.
Qed.

Lemma append_to_last_snoc (full : list (list row)) (g : list row) (r : row) :
  append_to_last (full ++ [g]) r = Ok (full ++ [g ++ [r]]).
Proof.
  induction full as [|a full IH]; [reflexivity|].
  simpl. destruct (full ++ [g]) eqn:E.
  - by destruct full.
  - by rewrite IH.
Qed.

Lemma py_mod_nonzero (a b : Z) : b <> 0 -> py_mod a b = Ok (a mod b).
Proof.
  intros Hb. unfold py_mod. by destruct (Z.eqb_spec b 0).
Qed.

(** The loop, entered with well-formed groups that hold the first [i]
    rows, ends with well-formed groups that hold these and the rows
    read. *)
Lemma group_rows_continue (k : Z) (reader : list row) :
  0 < k ->
  forall (full : list (list row)) (g : list row) (i : Z),
    Forall (full_group k) full ->
    1 <= Z.of_nat (length g) <= k ->
    i = k * Z.of_nat (length full) + Z.of_nat (length g) ->
    exists full' g',
      group_rows k i reader (full ++ [g]) = Ok (full' ++ [g'])
      /\ Forall (full_group k) full'
      /\ 1 <= Z.of_nat (length g') <= k
      /\ concat (full' ++ [g']) = concat (full ++ [g]) ++ reader.
Proof.
  intros Hk. induction reader as [|r reader IH]; intros full g i Hfull Hg Hi.
  - exists full, g. simpl. by rewrite app_nil_r.
  - cbn [group_rows]. rewrite py_mod_nonzero by lia. cbn [mbind result_bind].
    destruct (Z.eqb_spec (i mod k) 0) as [Hz | Hnz].
    + (* the last group is full: a new one starts *)
      assert (Z.of_nat (length g) = k) as Hfullg.
      { subst i. rewrite Z.add_comm, Z.mul_comm, Z.mod_add in Hz by lia.
        destruct (Z.eq_dec (Z.of_nat (length g)) k) as [|Hne]; [done|].
        rewrite Z.mod_small in Hz by lia. lia. }
      rewrite (append_to_last_snoc (full ++ [g]) [] r).
      cbn [mbind result_bind].
      destruct (IH (full ++ [g]) ([] ++ [r]) (i + 1)) as (full' & g' & Hrun & H1 & H2 & H3).

      * apply Forall_app. split; [done|]. by apply Forall_singleton.
      * simpl. lia.
      * rewrite length_app. simpl. lia.
      * exists full', g'. rewrite Hrun. repeat split; try done; try lia.
        rewrite H3. rewrite !concat_app. simpl.
        rewrite !app_nil_r, <- !app_assoc. done.
    + (* the last group has room *)
      assert (Z.of_nat (length g) < k) as Hroom.
      { destruct (Z.eq_dec (Z.of_nat (length g)) k) as [He|]; [|lia].
        exfalso. apply Hnz. subst i. rewrite He.
        replace (k * Z.of_nat (length full) + k)
          with ((Z.of_nat (length full) + 1) * k) by lia.
        apply Z.mod_mul. lia. }
      rewrite append_to_last_snoc. cbn [mbind result_bind].
      destruct (IH full (g ++ [r]) (i + 1)) as (full' & g' & Hrun & H1 & H2 & H3).
      * done.
      * rewrite length_app. simpl. lia.
      * rewrite length_app. simpl. lia.
      * exists full', g'. rewrite Hrun. repeat split; try done; try lia.
        rewrite H3. rewrite !concat_app. simpl.
        rewrite !app_nil_r, <- !app_assoc. done.
Qed.

(** From the start: the groups are well-formed and hold the rows of the
    reader in order. *)
Lemma group_rows_chunked (k : Z) (reader : list row) :
  0 < k ->
  exists groups,
    group_rows k 0 reader [] = Ok groups
    /\ chunked k groups
    /\ concat groups = reader.
Proof.
  intros Hk. destruct reader as [|r reader].
  - exists []. repeat split; [by left].
  - cbn [group_rows]. rewrite py_mod_nonzero by lia.
    rewrite Z.mod_0_l by lia. cbn [mbind result_bind Z.eqb app append_to_last].
    destruct (group_rows_continue k reader Hk [] [r] 1)
      as (full' & g' & Hrun & H1 & H2 & H3).
    + constructor.
    + simpl. lia.
    + simpl. lia.
    + exists (full' ++ [g']). split; [exact Hrun|]. split.
      * right. by exists full', g'.
      * rewrite H3. reflexivity.
Qed.

(** What well-formed groups look like from outside: their number, where
    each one sits in the rows, and the size of the last. *)
Lemma chunked_layout (k : Z) (full : list (list row)) (g : list row) :
  0 < k ->
  Forall (full_group k) full ->
  1 <= Z.of_nat (length g) <= k ->
  Z.of_nat (length (concat (full ++ [g])))
  = k * Z.of_nat (length full) + Z.of_nat (length g)
  /\ forall (j : nat) (x : list row),
       (full ++ [g]) !! j = Some x ->
       x = take (Z.to_nat k) (drop (j * Z.to_nat k) (concat (full ++ [g]))).
Proof.
  intros Hk Hfull Hg. induction Hfull as [|a full Ha Hfull IH].
  - simpl. rewrite app_nil_r. split; [lia|].
    intros [|j] x Hx; [|by destruct j]. simpl in Hx.
    injection Hx as <-. simpl. rewrite drop_0, take_ge by lia. done.
  - destruct IH as [IHlen IHidx]. unfold full_group in Ha.
    change ((a :: full) ++ [g]) with (a :: (full ++ [g])).
    cbn [concat]. split.
    + rewrite length_app. cbn [length]. lia.
    + intros [|j] x Hx.
      * simpl in Hx. injection Hx as <-. simpl.
        rewrite drop_0, take_app_length' by lia. done.
      * simpl in Hx. apply IHidx in Hx. rewrite Hx.
        replace (S j * Z.to_nat k)%nat with (Z.to_nat k + j * Z.to_nat k)%nat
          by lia.
        rewrite drop_app_add' by lia. done.
Qed.

Lemma chunked_summary (k : Z) (groups : list (list row)) :
  0 < k ->
  chunked k groups ->
  let n := Z.of_nat (length (concat groups)) in
  Z.of_nat (length groups) = ceil_div n k
  /\ (forall (j : nat) (g : list row),
        groups !! j = Some g ->
        g = take (Z.to_nat k) (drop (j * Z.to_nat k) (concat groups)))
  /\ (0 < n ->
      exists g, last groups = Some g
                /\ Z.of_nat (length g) = if n mod k =? 0 then k else n mod k).
Proof.
  intros Hk [-> | (full & g & -> & Hfull & Hg)] n; subst n.
  - simpl. unfold ceil_div. rewrite Z.div_small by lia.
    repeat split; [done | lia].
  - destruct (chunked_layout k full g Hk Hfull Hg) as [Hlen Hidx].
    rewrite Hlen. split; [|split; [exact Hidx|]].
    + rewrite length_app. cbn [length]. unfold ceil_div.
      apply (Z.div_unique _ _ _ (Z.of_nat (length g) - 1)); lia.
    + intros _. exists g. split; [apply last_snoc|].
      rewrite Z.add_comm, Z.mul_comm, Z.mod_add by lia.
      destruct (Z.eq_dec (Z.of_nat (length g)) k) as [He | Hne].
      * rewrite He, Z.mod_same by lia. reflexivity.
      * rewrite Z.mod_small by lia.
        destruct (Z.eqb_spec (Z.of_nat (length g)) 0); lia.
Qed.

(** C5: with [n] data rows and a chunk size [k] of at least one,
    [read_csv] returns the header, when one is asked for, followed by
    [ceil(n/k)] row groups; the groups hold the rows in order, group [j]
    being the rows from index [j*k] up to [j*k + k], so that a group
    starts at each multiple of [k]; the last group has [n mod k] rows, or
    [k] when [k] divides [n]. *)
Theorem read_csv_row_groups (fs : filesystem) (file_path content : string)
    (k : Z) (has_header : bool) (header : row) (rows : list row) :
  fs !! file_path = Some (File content) ->
  csv_reader (universal_newlines content)
  = (if has_header then header :: rows else rows) ->
  1 <= k ->
  let n := Z.of_nat (length rows) in
  exists groups : list (list row),
    read_csv fs file_path k has_header
    = Ok ((if has_header then [HeaderRow header] else [])
          ++ map RowGroup groups)
    /\ Z.of_nat (length groups) = ceil_div n k
    /\ concat groups = rows
    /\ (forall (j : nat) (g : list row),
          groups !! j = Some g ->
          g = take (Z.to_nat k) (drop (j * Z.to_nat k) rows))
    /\ (0 < n ->
        exists g, last groups = Some g
                  /\ Z.of_nat (length g)
                     = if n mod k =? 0 then k else n mod k).
Proof.
  intros Hfile Hreader Hk n.
  destruct (group_rows_chunked k rows ltac:(lia))
    as (groups & Hrun & Hshape & Hrows).
  pose proof (chunked_summary k groups ltac:(lia) Hshape) as Hsum.
  rewrite Hrows in Hsum. cbn zeta in Hsum.
  exists groups. split; [|split; [apply Hsum|split; [exact Hrows|apply Hsum]]].
  unfold read_csv, open_read. rewrite Hfile. cbn [mbind result_bind].
  rewrite Hreader. destruct has_header; rewrite Hrun; reflexivity.
Qed.

(** C7: a file whose only row is the header, read with [has_header],
    gives a list of length one that holds the header, whatever the chunk
    size; a path that does not exist makes [read_csv] raise its
    file-not-found [Exception], whatever the chunk size and the header
    flag. *)
Theorem read_csv_header_only (fs : filesystem)
    (file_path missing_path content : string) (header : row)
    (chunk_size : Z) (has_header : bool) :
  fs !! file_path = Some (File content) ->
  csv_reader (universal_newlines content) = [header] ->
  fs !! missing_path = None ->
  (exists data,
     read_csv fs file_path chunk_size true = Ok data
     /\ length data = 1%nat
     /\ data = [HeaderRow header])
  /\ read_csv fs missing_path chunk_size has_header
     = Raise (file_not_found (no_such_file missing_path)).
Proof.
  intros Hfile Hreader Hmissing. split.
  - exists [HeaderRow header]. split; [|done].
    unfold read_csv, open_read. rewrite Hfile. cbn [mbind result_bind].
    rewrite Hreader. reflexivity.
  - unfold read_csv, open_read. rewrite Hmissing. reflexivity.
Qed.

(** C9: with a chunk size of zero and at least one data row the first
    [i % chunk_size] raises [ZeroDivisionError]; no clause of the [try]
    catches it, so it is not the file-not-found [Exception] that reaches
    the caller. *)
Theorem read_csv_zero_chunk_size (fs : filesystem)
    (file_path content : string) (has_header : bool) (header r : row)
    (rest : list row) :
  fs !! file_path = Some (File content) ->
  csv_reader (universal_newlines content)
  = (if has_header then header :: r :: rest else r :: rest) ->
  read_csv fs file_path 0 has_header = Raise zero_division
  /\ exn_cls zero_division = ZeroDivisionErrorC
  /\ forall e, zero_division <> file_not_found e.
Proof.
  intros Hfile Hreader. split; [|split; [done|]].
  - unfold read_csv, open_read. rewrite Hfile. cbn [mbind result_bind].
    rewrite Hreader. destruct has_header; reflexivity.
  - apply zero_division_not_file_error.
Qed.

(** ** JSON *)

Lemma read_json_missing (fs : filesystem) (file_path : string)
    (chunk_size : Z) :
  fs !! file_path = None ->
  read_json fs file_path chunk_size
  = Raise (file_not_found (no_such_file file_path)).
Proof. intros H. unfold read_json, open_read. by rewrite H. Qed.

Lemma read_json_whole (fs : filesystem) (file_path content : string) :
  fs !! file_path = Some (File content) ->
  read_json fs file_path 0
  = match json_loads (universal_newlines content) with
    | inl v => Ok v
    | inr msg => Raise (json_decode_error (MkExn JSONDecodeErrorC msg))
    end.
Proof.
  intros H. unfold read_json, open_read. rewrite H. cbn.
  by destruct (json_loads _).
Qed.

(** With a chunk size other than zero [json.load] is handed a [str]. *)
Lemma read_json_chunked (fs : filesystem) (file_path : string)
    (chunk_size : Z) :
  chunk_size <> 0 ->
  read_json fs file_path chunk_size
  = match fs !! file_path with
    | None => Raise (file_not_found (no_such_file file_path))
    | Some Dir => Raise (is_a_directory file_path)
    | Some (File _) => Raise str_has_no_read
    end.
Proof.
  intros Hk. unfold read_json, open_read.
  destruct (fs !! file_path) as [[content|]|]; try reflexivity.
  cbn [mbind result_bind]. by destruct (Z.eqb_spec chunk_size 0).
Qed.

(** C6: read with the default chunk size, a missing file and a malformed
    document both end in a raised [Exception]; the two differ, the first
    by the prefix [file not found error : ] and the second by
    [json decode error : ], each followed by the text of the exception
    it stands for; a well-formed document comes back as the value
    [json.load] gives it. The missing file is reported the same way at
    every chunk size. *)
Theorem read_json_reports (fs : filesystem)
    (missing_path bad_path good_path bad_text good_text msg : string)
    (v : pyobj) (chunk_size : Z) :
  fs !! missing_path = None ->
  fs !! bad_path = Some (File bad_text) ->
  json_loads (universal_newlines bad_text) = inr msg ->
  fs !! good_path = Some (File good_text) ->
  json_loads (universal_newlines good_text) = inl v ->
  let not_found := file_not_found (no_such_file missing_path) in
  let parse_error := json_decode_error (MkExn JSONDecodeErrorC msg) in
  read_json fs missing_path chunk_size = Raise not_found
  /\ read_json fs bad_path 0 = Raise parse_error
  /\ not_found <> parse_error
  /\ exn_str not_found
     = "file not found error : " +:+ exn_str (no_such_file missing_path)
  /\ exn_str parse_error = "json decode error : " +:+ msg
  /\ read_json fs good_path 0 = Ok v.
Proof.
  intros Hmissing Hbad Hbadtext Hgood Hgoodtext not_found parse_error.
  split; [by apply read_json_missing|].
  split; [by rewrite (read_json_whole _ _ _ Hbad), Hbadtext|].
  split; [apply file_not_found_not_decode_error|].
  split; [reflexivity|]. split; [reflexivity|].
  by rewrite (read_json_whole _ _ _ Hgood), Hgoodtext.
Qed.

Lemma read_json_Ok_whole (fs : filesystem) (file_path : string)
    (chunk_size : Z) (v : pyobj) :
  read_json fs file_path chunk_size = Ok v -> chunk_size = 0.
Proof.
  intros H. destruct (Z.eq_dec chunk_size 0) as [|Hk]; [done|].
  rewrite read_json_chunked in H by done.
  by destruct (fs !! file_path) as [[content|]|].
Qed.

(** C10: with a positive chunk size [read_json] never returns a value:
    when the file is there the [str] passed to [json.load] makes it raise
    [AttributeError], which no clause catches; and whenever [read_json]
    returns, the chunk size was zero. *)
Theorem read_json_chunked_never_returns (fs : filesystem)
    (file_path : string) (chunk_size : Z) :
  0 < chunk_size ->
  (forall v, read_json fs file_path chunk_size <> Ok v)
  /\ (exists e, read_json fs file_path chunk_size = Raise e)
  /\ (forall content,
        fs !! file_path = Some (File content) ->
        read_json fs file_path chunk_size = Raise str_has_no_read)
  /\ (forall k v, read_json fs file_path k = Ok v -> k = 0).
Proof.
  intros Hk.
  assert (Hne : chunk_size <> 0) by lia.
  pose proof (read_json_chunked fs file_path chunk_size Hne) as Hrun.
  split; [|split; [|split]].
  - intros v Hv. apply read_json_Ok_whole in Hv. lia.
  - rewrite Hrun. destruct (fs !! file_path) as [[content|]|]; eauto.
  - intros content Hfile. by rewrite Hrun, Hfile.
  - intros k v. apply read_json_Ok_whole.
Qed.

(** ** Reading in chunks *)

Lemma append_cons (c : ascii) (s t : string) :
  String c s +:+ t = String c (s +:+ t).
Proof. reflexivity. Qed.

Lemma append_empty_r (s : string) : s +:+ EmptyString = s.
Proof.
  induction s as [|c s IH]; [done|]. by rewrite append_cons, IH.
Qed.

Lemma string_take_drop (n : nat) (s : string) :
  string_take n s +:+ string_drop n s = s.
Proof.
  revert s. induction n as [|n IH]; intros [|c s]; simpl; try done.
  by rewrite append_cons, IH.
Qed.

Lemma string_drop_length (n : nat) (s : string) :
  (String.length (string_drop n s) = String.length s - n)%nat.
Proof.
  revert s. induction n as [|n IH]; intros [|c s]; simpl; auto with lia.
Qed.

Lemma read_chunks_positive (chunk_size : Z) (fuel : nat) :
  0 < chunk_size ->
  forall text : string,
    (String.length text < fuel)%nat ->
    join (read_chunks fuel chunk_size text) = text.
Proof.
  intros Hk. induction fuel as [|fuel IH]; intros text Hlen; [lia|].
  cbn [read_chunks]. unfold file_read.
  destruct (Z.ltb_spec chunk_size 0) as [|_]; [lia|].
  destruct (Z.to_nat chunk_size) as [|n] eqn:Hn; [lia|].
  destruct text as [|c text]; [reflexivity|].
  cbn [string_take string_drop String.eqb join foldr].
  rewrite IH.
  - by rewrite append_cons, string_take_drop.
  - rewrite string_drop_length. simpl in Hlen. lia.
Qed.

(** Reading in chunks of any size other than zero and joining the chunks
    gives the text of the file: the fuel of [read_in_chunks] suffices. *)
Lemma read_in_chunks_all (chunk_size : Z) (text : string) :
  chunk_size <> 0 -> read_in_chunks chunk_size text = text.
Proof.
  intros Hk. unfold read_in_chunks.
  destruct (Z.ltb_spec chunk_size 0) as [Hneg | Hpos].
  - cbn [read_chunks]. unfold file_read.
    destruct (Z.ltb_spec chunk_size 0) as [_|]; [|lia].
    destruct text as [|c text]; [reflexivity|].
    cbn [String.eqb String.length read_chunks].
    unfold file_read. destruct (Z.ltb_spec chunk_size 0) as [_|]; [|lia].
    simpl. by rewrite append_empty_r.
  - apply read_chunks_positive; lia.
Qed.

(** X2: the chunk size of [read_file] does not change what it returns,
    in either mode, for a present and for a missing file. *)
Lemma read_file_chunk_size (fs : filesystem) (file_path : string)
    (read_line_by_line : bool) (chunk_size : Z) :
  read_file fs file_path read_line_by_line chunk_size
  = read_file fs file_path read_line_by_line 0.
Proof.
  unfold read_file. destruct (open_read fs file_path) as [f | e]; [|done].
  cbn [mbind result_bind]. destruct (Z.eqb_spec chunk_size 0) as [-> | Hk].
  - done.
  - by rewrite read_in_chunks_all.
Qed.

(** ** Extensions *)

Lemma string_drop_0 (s : string) : string_drop 0 s = s.
Proof. by destruct s. Qed.

Lemma string_drop_add (n m : nat) (s : string) :
  string_drop (n + m) s = string_drop m (string_drop n s).
Proof.
  revert s. induction n as [|n IH]; intros s.
  - by rewrite string_drop_0.
  - destruct s as [|c s]; [by destruct m | apply IH].
Qed.

Lemma occurs_drop (c : ascii) (n : nat) (s : string) :
  occurs c s = false -> occurs c (string_drop n s) = false.
Proof.
  revert s. induction n as [|n IH]; intros [|a s] H; simpl; try done.
  simpl in H. apply orb_false_iff in H as [_ H]. by apply IH.
Qed.

(** Where [rfind] lands: on the last occurrence, or on the value it
    started with when there is none. *)
Lemma rfind_from_spec (c : ascii) (s : string) :
  forall i last : Z,
    last < i ->
    let r := rfind_from c s i last in
    (r = last /\ occurs c s = false)
    \/ (i <= r < i + Z.of_nat (String.length s)
        /\ exists rest,
             string_drop (Z.to_nat (r - i)) s = String c rest
             /\ occurs c rest = false).
Proof.
  induction s as [|a s IH]; intros i last Hlast r; subst r.
  - by left.
  - cbn [rfind_from occurs String.length].
    destruct (Ascii.eqb_spec a c) as [-> | Hne].
    + destruct (IH (i + 1) i ltac:(lia)) as [[Hr Hno] | (Hr & rest & Hd & Hno)].
      * right. rewrite Hr. split; [lia|]. exists s.
        by rewrite Z.sub_diag.
      * right. split; [lia|]. exists rest. split; [|done].
        replace (Z.to_nat (rfind_from c s (i + 1) i - i))
          with (S (Z.to_nat (rfind_from c s (i + 1) i - (i + 1)))) by lia.
        exact Hd.
    + destruct (IH (i + 1) last ltac:(lia))
        as [[Hr Hno] | (Hr & rest & Hd & Hno)].
      * left. by rewrite Hr, Hno.
      * right. split; [lia|]. exists rest. split; [|done].
        replace (Z.to_nat (rfind_from c s (i + 1) last - i))
          with (S (Z.to_nat (rfind_from c s (i + 1) last - (i + 1)))) by lia.
        exact Hd.
Qed.

(** X3: what [splitext] cuts off is the extension [get_extension]
    returns, and the two parts put together are the path. *)
Theorem get_extension_is_suffix (file_path : string) :
  fst (splitext file_path) +:+ get_extension file_path = file_path.
Proof.
  unfold get_extension, splitext.
  destruct (_ && _); cbn [fst snd].
  - unfold slice. rewrite Z.sub_0_r. change (Z.to_nat 0) with 0%nat.
    rewrite string_drop_0. apply string_take_drop.
  - apply append_empty_r.
Qed.

(** X4: the extension is empty, or it is a dot followed by characters
    among which there is neither a dot nor a separator. *)
Theorem get_extension_shape (file_path : string) :
  get_extension file_path = EmptyString
  \/ exists rest,
       get_extension file_path = String "."%char rest
       /\ occurs "."%char rest = false
       /\ occurs "/"%char rest = false.
Proof.
  unfold get_extension, splitext.
  pose proof (rfind_from_spec "/"%char file_path 0 (-1) ltac:(lia)) as Hsep.
  pose proof (rfind_from_spec "."%char file_path 0 (-1) ltac:(lia)) as Hdot.
  fold (rfind "/"%char file_path) in Hsep.
  fold (rfind "."%char file_path) in Hdot.
  cbn zeta in Hsep, Hdot.
  set (sep := rfind "/"%char file_path) in *.
  set (dot := rfind "."%char file_path) in *.
  destruct (Z.ltb_spec sep dot) as [Hlt | Hge]; [|by left].
  destruct (has_name_before_dot _ _ _ _); [|by left].
  right. cbn [andb snd].
  destruct Hdot as [[Hd _] | (Hd & rest & Hdrop & Hnodot)].
  { destruct Hsep as [[Hs _] | (Hs & _)]; lia. }
  rewrite Z.sub_0_r in Hdrop. exists rest. split; [exact Hdrop|].
  split; [exact Hnodot|].
  assert (occurs "/"%char (string_drop (Z.to_nat dot) file_path) = false)
    as Hnosep.
  { destruct Hsep as [[_ Hno] | (Hs & rest_s & Hdrop_s & Hno)].
    - by apply occurs_drop.
    - rewrite Z.sub_0_r in Hdrop_s.
      replace (Z.to_nat dot)
        with (Z.to_nat sep + S (Z.to_nat (dot - sep - 1)))%nat by lia.
      rewrite string_drop_add, Hdrop_s. cbn [string_drop].
      by apply occurs_drop. }
  rewrite Hdrop in Hnosep. exact Hnosep.
Qed.

(** ** More on the request helper *)

Lemma handle_request_error_str (e : exn) :
  handle (A := pyobj * bool * string)
    [ (RequestsConnectionErrorC, fun e => Ok (PNone, false, exn_str e));
      (ConnectionRefusedErrorC, fun e => Ok (PNone, false, exn_str e));
      (RequestsReadTimeoutC, fun e => Ok (PNone, false, exn_str e));
      (ExceptionC, fun e => Ok (PNone, false, exn_str e)) ] e
  = Ok (PNone, false, exn_str e).
Proof.
  simpl.
  repeat (match goal with |- context [isinstance e ?c] =>
            destruct (isinstance e c) eqn:? end; try reflexivity).
  by rewrite isinstance_Exception in *.
Qed.

(** With a member of [RequestMethods] the request of that method is the
    one sent. *)
Lemma common_request_member (ip : string) (port : Z) (path : string)
    (timeout : Z) (protocol : string) (headers params : pyobj)
    (m : RequestMethods) :
  common_request ip port path timeout protocol headers params
    (Member (RequestMethod m))
  = match
      (result ← send m (format_url protocol ip port path) timeout
                  headers params;
       if status_code result =? 200 then
         body ← json_body result;
         res ← getitem body "result";
         Ok (res, true)
       else Ok (PNone, false))
    with
    | Ok (res, is_success) => Ok (res, is_success, EmptyString)
    | Raise e => Ok (PNone, false, exn_str e)
    end.
Proof.
  unfold common_request.
  destruct m;
    (match goal with
     | |- match ?a with Ok _ => _ | Raise _ => _ end
          = match ?b with Ok _ => _ | Raise _ => _ end =>
         change a with b; destruct b as [[res ok] | e]
     end;
     [reflexivity | apply handle_request_error_str]).
Qed.

(** X5: a request of a supported method that is answered [200] with a
    JSON object holding [result] gives that value, [True] and an empty
    message. *)
Theorem common_request_success (ip : string) (port : Z) (path : string)
    (timeout : Z) (protocol : string) (headers params : pyobj)
    (m : RequestMethods) (resp : response) (body res : pyobj) :
  send m (format_url protocol ip port path) timeout headers params = Ok resp ->
  status_code resp = 200 ->
  json_body resp = Ok body ->
  getitem body "result" = Ok res ->
  common_request ip port path timeout protocol headers params
    (Member (RequestMethod m))
  = Ok (res, true, EmptyString).
Proof.
  intros Hsend Hstatus Hbody Hres. rewrite common_request_member, Hsend.
  cbn [mbind result_bind]. rewrite Hstatus, Hbody. cbn [Z.eqb Pos.eqb mbind result_bind].
  by rewrite Hres.
Qed.

(** X6: the helper reports success in no other case: when the second
    component is [True], the method was a member, the answer was [200],
    its JSON held [result], that value is the first component and the
    message is empty. *)
Theorem common_request_success_only (ip : string) (port : Z) (path : string)
    (timeout : Z) (protocol : string) (headers params : pyobj)
    (method : pyarg) (res : pyobj) (message : string) :
  common_request ip port path timeout protocol headers params method
  = Ok (res, true, message) ->
  exists m resp body,
    method = Member (RequestMethod m)
    /\ send m (format_url protocol ip port path) timeout headers params
       = Ok resp
    /\ status_code resp = 200
    /\ json_body resp = Ok body
    /\ getitem body "result" = Ok res
    /\ message = EmptyString.
Proof.
  intros H. destruct method as [v | [m | e | u]]; try discriminate H.
  rewrite common_request_member in H. exists m.
  destruct (send m _ _ _ _) as [resp | e]; [|discriminate H].
  cbn [mbind result_bind] in H. exists resp.
  destruct (Z.eqb_spec (status_code resp) 200) as [Hs | Hs];
    [|discriminate H].
  destruct (json_body resp) as [body | e]; [|discriminate H].
  cbn [mbind result_bind] in H. exists body.
  destruct (getitem body "result") as [r | e]; [|discriminate H].
  cbn [mbind result_bind] in H. injection H as <- <-. done.
Qed.

(** X7: an answer with a status other than [200] gives the failure
    triple with an empty message: the status and the body are lost. *)
Theorem common_request_other_status (ip : string) (port : Z) (path : string)
    (timeout : Z) (protocol : string) (headers params : pyobj)
    (m : RequestMethods) (resp : response) :
  send m (format_url protocol ip port path) timeout headers params = Ok resp ->
  status_code resp <> 200 ->
  common_request ip port path timeout protocol headers params
    (Member (RequestMethod m))
  = Ok (PNone, false, EmptyString).
Proof.
  intros Hsend Hstatus. rewrite common_request_member, Hsend.
  cbn [mbind result_bind]. by destruct (Z.eqb_spec (status_code resp) 200).
Qed.

(** X8: an exception of the request, of the decoding of a [200] answer
    or of the lookup of [result] in it gives the failure triple with
    the text of the exception as message. *)
Theorem common_request_exception (ip : string) (port : Z) (path : string)
    (timeout : Z) (protocol : string) (headers params : pyobj)
    (m : RequestMethods) (e : exn) :
  send m (format_url protocol ip port path) timeout headers params = Raise e
  \/ (exists resp,
        send m (format_url protocol ip port path) timeout headers params
        = Ok resp
        /\ status_code resp = 200
        /\ (body ← json_body resp; getitem body "result") = Raise e) ->
  common_request ip port path timeout protocol headers params
    (Member (RequestMethod m))
  = Ok (PNone, false, exn_str e).
Proof.
  intros [Hsend | (resp & Hsend & Hstatus & Hbody)];
    rewrite common_request_member, Hsend; [reflexivity|].
  cbn [mbind result_bind]. rewrite Hstatus. cbn [Z.eqb Pos.eqb].
  destruct (json_body resp) as [body | e']; cbn [mbind result_bind] in *.
  - by rewrite Hbody.
  - by injection Hbody as ->.
Qed.

(** ** More on byte sizes *)


(** ** More on the readers *)

(** X10: in line mode [read_file] returns the lines of the text it
    returns in whole mode, whatever the two chunk sizes. *)
Theorem read_file_lines_of_whole (fs : filesystem) (file_path text : string)
    (k1 k2 : Z) :
  read_file fs file_path false k1 = Ok (Whole text) ->
  read_file fs file_path true k2 = Ok (Lines (splitlines text)).
Proof.
  unfold read_file. destruct (open_read fs file_path) as [f | e].
  - cbn [mbind result_bind try_except].
    destruct (Z.eqb_spec k1 0) as [_ | H1], (Z.eqb_spec k2 0) as [_ | H2];
      rewrite ?read_in_chunks_all by done; by intros [= ->].
  - cbn [mbind result_bind try_except handle].
    by destruct (isinstance e FileNotFoundErrorC).
Qed.

(** X11: a path that is a directory makes the three readers raise the
    [IsADirectoryError] of [open] as it is: only a missing file is
    reported through the [Exception] of the readers. *)
Theorem readers_on_directory (fs : filesystem) (file_path : string)
    (read_line_by_line has_header : bool) (chunk_size : Z) :
  fs !! file_path = Some Dir ->
  read_file fs file_path read_line_by_line chunk_size
  = Raise (is_a_directory file_path)
  /\ read_json fs file_path chunk_size = Raise (is_a_directory file_path)
  /\ read_csv fs file_path chunk_size has_header
     = Raise (is_a_directory file_path).
Proof.
  intros H. unfold read_file, read_json, read_csv, open_read.
  rewrite H. repeat split; reflexivity.
Qed.

(** X12: asked for a header on a file without rows, [read_csv] raises
    the [StopIteration] of [next(reader)]. *)
Theorem read_csv_header_of_empty_file (fs : filesystem)
    (file_path content : string) (chunk_size : Z) :
  fs !! file_path = Some (File content) ->
  csv_reader (universal_newlines content) = [] ->
  read_csv fs file_path chunk_size true
  = Raise (MkExn StopIterationC EmptyString).
Proof.
  intros Hfile Hreader. unfold read_csv, open_read. rewrite Hfile.
  cbn [mbind result_bind]. by rewrite Hreader.
Qed.

Lemma mod_opp_eqb (i k : Z) : (i mod (- k) =? 0) = (i mod k =? 0).
Proof.
  destruct (Z.eq_dec k 0) as [-> | Hk]; [reflexivity|].
  destruct (Z.eqb_spec (i mod k) 0) as [H | H],
           (Z.eqb_spec (i mod (- k)) 0) as [H' | H']; try reflexivity.
  - exfalso. apply H'. apply Z.mod_divide in H; [|done].
    apply Z.mod_divide; [lia|]. exact (proj2 (Z.divide_opp_l k i) H).
  - exfalso. apply H. apply Z.mod_divide in H'; [|lia].
    apply Z.mod_divide; [done|]. exact (proj1 (Z.divide_opp_l k i) H').
Qed.

Lemma group_rows_opp (k : Z) (reader : list row) :
  forall (i : Z) (data : list (list row)),
    group_rows (- k) i reader data = group_rows k i reader data.
Proof.
  induction reader as [|r reader IH]; intros i data; [reflexivity|].
  cbn [group_rows]. unfold py_mod.
  destruct (Z.eqb_spec k 0) as [-> | Hk]; [reflexivity|].
  destruct (Z.eqb_spec (- k) 0) as [|_]; [lia|].
  cbn [mbind result_bind]. rewrite mod_opp_eqb.
  destruct (append_to_last _ r) as [data' | e]; [|reflexivity].
  cbn [mbind result_bind]. apply IH.
Qed.

(** X13: a negative chunk size groups the rows as its absolute value
    does. *)
Theorem read_csv_negative_chunk_size (fs : filesystem) (file_path : string)
    (chunk_size : Z) (has_header : bool) :
  read_csv fs file_path (- chunk_size) has_header
  = read_csv fs file_path chunk_size has_header.
Proof.
  unfold read_csv. destruct (open_read fs file_path) as [f | e]; [|done].
  cbn [mbind result_bind].
  destruct has_header; [destruct (csv_reader f)|]; by rewrite ?group_rows_opp.
Qed.

(** ** More on the writers *)

Lemma append_nil_l (s : string) : EmptyString +:+ s = s.
Proof. reflexivity. Qed.

Lemma append_assoc (s t u : string) : (s +:+ t) +:+ u = s +:+ t +:+ u.
Proof.
  induction s as [|c s IH]; [reflexivity|].
  by rewrite !append_cons, IH.
Qed.

Lemma universal_newlines_without_CR (s : string) :
  occurs CR s = false -> universal_newlines s = s.
Proof.
  induction s as [|c s IH]; [done|]. cbn [occurs universal_newlines].
  intros H. apply orb_false_iff in H as [Hc Hs].
  rewrite Hc. by rewrite IH.
Qed.

Lemma normal_mode_a_or_w (mode : string) :
  normal_mode mode = (if String.eqb mode "a" then "a" else "w").
Proof.
  unfold normal_mode. destruct (String.eqb_spec mode "a") as [-> | Ha];
    [reflexivity|].
  destruct (bool_decide_reflect (mode ∈ ["a"; "w"])) as [Hin | _];
    [|reflexivity].
  apply list_elem_of_In in Hin. simpl in Hin.
  by destruct Hin as [? | [? | []]].
Qed.

Lemma parent_check_insert_file (fs : filesystem) (file_path content : string) :
  parent_check fs file_path = Ok tt ->
  fs !! file_path <> Some Dir ->
  parent_check (<[file_path := File content]> fs) file_path = Ok tt.
Proof.
  unfold parent_check. intros Hparent Hdir.
  destruct (_ || _); [done|].
  destruct (decide (dirname file_path = file_path)) as [He | Hne].
  - rewrite He in Hparent.
    destruct (fs !! file_path) as [[c|]|]; done.
  - by rewrite lookup_insert_ne.
Qed.

Lemma open_write_effect (fs : filesystem) (file_path mode : string) :
  parent_check fs file_path = Ok tt ->
  fs !! file_path <> Some Dir ->
  open_write fs file_path mode
  = Ok (<[file_path :=
            File (if String.eqb mode "a" then text_at fs file_path
                  else EmptyString)]> fs).
Proof.
  intros Hparent Hdir. unfold open_write, text_at. rewrite Hparent.
  cbn [mbind result_bind].
  destruct (fs !! file_path) as [[c|]|] eqn:E; [|done|].
  - destruct (String.eqb mode "a"); [|done].
    by rewrite insert_id.
  - by destruct (String.eqb mode "a").
Qed.

(** What a writer leaves when the file can be opened: the text written,
    after what the file held in append mode, and the exception of the
    serializer if it raised one. *)
Lemma write_with_effect (fs : filesystem) (file_path mode : string)
    (out : string * option exn) :
  parent_check fs file_path = Ok tt ->
  fs !! file_path <> Some Dir ->
  write_with fs file_path mode out
  = (<[file_path :=
         File ((if String.eqb mode "a" then text_at fs file_path
                else EmptyString) +:+ fst out)]> fs,
     match snd out with
     | None => Ok true
     | Some e => Raise e
     end).
Proof.
  intros Hparent Hdir. unfold write_with.
  rewrite open_write_effect by done. unfold file_write.
  rewrite lookup_insert_eq, insert_insert_eq. by destruct (snd out).
Qed.

Lemma write_file_effect (fs : filesystem) (file_path text mode : string) :
  parent_check fs file_path = Ok tt ->
  fs !! file_path <> Some Dir ->
  write_file fs file_path (PStr text) mode
  = (<[file_path :=
         File ((if String.eqb mode "a" then text_at fs file_path
                else EmptyString) +:+ text)]> fs,
     Ok true).
Proof.
  intros Hparent Hdir. unfold write_file.
  rewrite write_with_effect by done. rewrite normal_mode_a_or_w.
  by destruct (String.eqb mode "a").
Qed.


(** X15: every mode other than ["a"] is the mode ["w"]: the file is
    emptied before it is written. *)
Theorem writers_mode_defaults_to_w (fs : filesystem) (file_path : string)
    (data : pyobj) (mode : string) :
  mode <> "a" ->
  write_file fs file_path data mode = write_file fs file_path data "w"
  /\ write_json fs file_path data mode = write_json fs file_path data "w"
  /\ write_csv fs file_path data mode = write_csv fs file_path data "w".
Proof.
  intros Hmode. unfold write_file, write_json, write_csv.
  rewrite !normal_mode_a_or_w.
  destruct (String.eqb_spec mode "a"); [done|]. repeat split; reflexivity.
Qed.

(** X16: a writer changes no path but the one it writes. *)
Theorem writers_touch_one_path (fs : filesystem) (file_path other : string)
    (data : pyobj) (mode : string) :
  other <> file_path ->
  fst (write_file fs file_path data mode) !! other = fs !! other
  /\ fst (write_json fs file_path data mode) !! other = fs !! other
  /\ fst (write_csv fs file_path data mode) !! other = fs !! other.
Proof.
  intros Hother.
  assert (forall m out, fst (write_with fs file_path m out) !! other
                        = fs !! other) as Hframe.
  { intros m out. unfold write_with, open_write, file_write.
    destruct (parent_check fs file_path) as [[]|e]; [|done].
    cbn [mbind result_bind].
    destruct (fs !! file_path) as [[c|]|] eqn:E.
    - destruct (String.eqb m "a").
      + rewrite E. destruct (snd out); cbn [fst];
          by rewrite lookup_insert_ne.
      + rewrite lookup_insert_eq. destruct (snd out); cbn [fst];
          by rewrite !lookup_insert_ne.
    - done.
    - rewrite lookup_insert_eq. destruct (snd out); cbn [fst];
        by rewrite !lookup_insert_ne. }
  unfold write_file, write_json, write_csv, try_write. cbn [fst].
  repeat split; apply Hframe.
Qed.

(** X17: two writes in append mode leave what the file held followed by
    the first text and the second; both return [True]. *)
Theorem write_file_appends (fs : filesystem) (file_path s1 s2 : string) :
  parent_check fs file_path = Ok tt ->
  fs !! file_path <> Some Dir ->
  let first := write_file fs file_path (PStr s1) "a" in
  let second := write_file (fst first) file_path (PStr s2) "a" in
  snd first = Ok true
  /\ snd second = Ok true
  /\ fst second !! file_path
     = Some (File (text_at fs file_path +:+ s1 +:+ s2)).
Proof.
  intros Hparent Hdir first second. subst first second.
  rewrite (write_file_effect fs) by done. cbn [fst snd String.eqb Ascii.eqb].
  rewrite write_file_effect.
  - cbn [fst snd]. repeat split. rewrite lookup_insert_eq.
    unfold text_at at 1. rewrite lookup_insert_eq.
    change (String.eqb "a" "a") with true. cbn iota.
    by rewrite append_assoc.
  - by apply parent_check_insert_file.
  - by rewrite lookup_insert_eq.
Qed.

(** X18: a write in the default mode leaves the text written and nothing
    of what the file held or of an earlier write. *)
Theorem write_file_overwrites (fs : filesystem) (file_path s1 s2 : string) :
  parent_check fs file_path = Ok tt ->
  fs !! file_path <> Some Dir ->
  let first := write_file fs file_path (PStr s1) "w" in
  let second := write_file (fst first) file_path (PStr s2) "w" in
  fst first !! file_path = Some (File s1)
  /\ fst second !! file_path = Some (File s2)
  /\ fst second = fst (write_file fs file_path (PStr s2) "w").
Proof.
  intros Hparent Hdir first second. subst first second.
  rewrite !(write_file_effect fs) by done. cbn [fst snd].
  change (String.eqb "w" "a") with false. cbn iota.
  rewrite !append_nil_l. rewrite write_file_effect.
  - cbn [fst]. change (String.eqb "w" "a") with false. cbn iota.
    rewrite append_nil_l, insert_insert_eq, !lookup_insert_eq. done.
  - by apply parent_check_insert_file.
  - by rewrite lookup_insert_eq.
Qed.

(** X19: a text without carriage return comes back from [read_file] as
    it was given to [write_file]. *)
Theorem write_file_read_file_exact (fs : filesystem)
    (file_path text : string) (chunk_size : Z) :
  parent_check fs file_path = Ok tt ->
  fs !! file_path <> Some Dir ->
  occurs CR text = false ->
  read_file (fst (write_file fs file_path (PStr text) "w")) file_path false
    chunk_size
  = Ok (Whole text).
Proof.
  intros Hparent Hdir Hcr. rewrite write_file_effect by done. cbn [fst].
  change (String.eqb "w" "a") with false. cbn iota. rewrite append_nil_l.
  unfold read_file, open_read. rewrite lookup_insert_eq.
  cbn [mbind result_bind try_except].
  rewrite universal_newlines_without_CR by done.
  destruct (Z.eqb_spec chunk_size 0); [done|].
  by rewrite read_in_chunks_all.
Qed.

(** X20: when [json.dump] raises, [write_json] returns [False] and the
    file holds what was written until then: in mode ["w"] what the file
    held before is lost. *)
Theorem write_json_interrupted (fs : filesystem) (file_path : string)
    (data : pyobj) (text : string) (e : exn) :
  parent_check fs file_path = Ok tt ->
  fs !! file_path <> Some Dir ->
  json_dump data = (text, Some e) ->
  write_json fs file_path data "w"
  = (<[file_path := File text]> fs, Ok false).
Proof.
  intros Hparent Hdir Hdump. unfold write_json, try_write.
  rewrite write_with_effect by done. rewrite Hdump. cbn [fst snd].
  change (String.eqb (normal_mode "w") "a") with false. cbn iota.
  by rewrite append_nil_l, try_except_return_false.
Qed.

(** X21: what [json.loads] makes of the text of [json.dump] is what
    [read_json] returns after [write_json]. *)
Theorem write_json_read_json (fs : filesystem) (file_path : string)
    (data v : pyobj) (text : string) :
  parent_check fs file_path = Ok tt ->
  fs !! file_path <> Some Dir ->
  json_dump data = (text, None) ->
  json_loads (universal_newlines text) = inl v ->
  snd (write_json fs file_path data "w") = Ok true
  /\ read_json (fst (write_json fs file_path data "w")) file_path 0 = Ok v.
Proof.
  intros Hparent Hdir Hdump Hloads. unfold write_json, try_write.
  rewrite write_with_effect by done. rewrite Hdump. cbn [fst snd].
  change (String.eqb (normal_mode "w") "a") with false. cbn iota.
  rewrite append_nil_l. split; [reflexivity|].
  rewrite (read_json_whole _ _ text) by apply lookup_insert_eq.
  by rewrite Hloads.
Qed.

(** X22: the rows [csv.reader] makes of the text of [csv.writer] come
    back from [read_csv] after [write_csv], in order, in groups. *)
Theorem write_csv_read_csv (fs : filesystem) (file_path : string)
    (data : pyobj) (text : string) (rows : list row) (chunk_size : Z) :
  parent_check fs file_path = Ok tt ->
  fs !! file_path <> Some Dir ->
  csv_writerows data = (text, None) ->
  csv_reader (universal_newlines text) = rows ->
  1 <= chunk_size ->
  snd (write_csv fs file_path data "w") = Ok true
  /\ exists groups,
       read_csv (fst (write_csv fs file_path data "w")) file_path
         chunk_size false
       = Ok (map RowGroup groups)
       /\ concat groups = rows.
Proof.
  intros Hparent Hdir Hwrite Hreader Hk. unfold write_csv, try_write.
  rewrite write_with_effect by done. rewrite Hwrite. cbn [fst snd].
  change (String.eqb (normal_mode "w") "a") with false. cbn iota.
  rewrite append_nil_l. split; [reflexivity|].
  destruct (group_rows_chunked chunk_size rows ltac:(lia))
    as (groups & Hrun & _ & Hrows).
  exists groups. split; [|exact Hrows].
  unfold read_csv, open_read. rewrite lookup_insert_eq.
  cbn [mbind result_bind]. by rewrite Hreader, Hrun.
Qed.

(** ** Copies *)

Lemma copyfile_onto_file (fs : filesystem) (src dst content : string) :
  fs !! src = Some (File content) ->
  src <> dst ->
  parent_check fs dst = Ok tt ->
  fs !! dst <> Some Dir ->
  copyfile fs src dst = Copied (<[dst := File content]> fs).
Proof.
  intros Hsrc Hne Hparent Hdir.
  unfold copyfile. rewrite bool_decide_eq_false_2 by done. cbn [andb].
  rewrite Hsrc, open_write_effect by done.
  change (String.eqb "w" "a") with false. cbn iota.
  unfold file_write. by rewrite lookup_insert_eq, insert_insert_eq.
Qed.

Lemma shutil_copy_onto_file (fs : filesystem) (src dst content : string) :
  fs !! src = Some (File content) ->
  src <> dst ->
  parent_check fs dst = Ok tt ->
  fs !! dst <> Some Dir ->
  shutil_copy fs src dst = Copied (<[dst := File content]> fs).
Proof.
  intros Hsrc Hne Hparent Hdir. unfold shutil_copy.
  replace (match fs !! dst with
           | Some Dir => path_join dst (basename src)
           | _ => dst
           end) with dst by (by destruct (fs !! dst) as [[c|]|]).
  by apply copyfile_onto_file.
Qed.

(** X23: when both paths are the path of one file that is there, the
    function returns [False] and changes nothing, with or without
    replacements. *)
Theorem copy_and_replace_same_file (fs : filesystem)
    (file_path content : string) (replace_list : option (list ReplaceInfo)) :
  fs !! file_path = Some (File content) ->
  copy_and_replace_file fs file_path file_path replace_list = (fs, Ok false).
Proof.
  intros Hfile. unfold copy_and_replace_file, shutil_copy, copyfile.
  rewrite Hfile. rewrite bool_decide_eq_true_2 by done.
  unfold path_exists. rewrite Hfile.
  by rewrite bool_decide_eq_true_2 by eauto.
Qed.

(** X24: a source that is not there makes the function raise the
    [FileNotFoundError] of the copy, for every destination, the source
    itself included: it does not return [False]. *)
Theorem copy_and_replace_missing_source (fs : filesystem)
    (original_file_path copy_file_path : string)
    (replace_list : option (list ReplaceInfo)) :
  fs !! original_file_path = None ->
  copy_and_replace_file fs original_file_path copy_file_path replace_list
  = (fs, Raise (no_such_file original_file_path)).
Proof.
  intros Hsrc. unfold copy_and_replace_file, shutil_copy, copyfile.
  unfold path_exists. rewrite Hsrc.
  rewrite (bool_decide_eq_false_2 (is_Some None))
    by (intros [x Hx]; discriminate Hx).
  by rewrite andb_false_r.
Qed.

(** X25: without replacements, [None] or an empty list, the copy holds
    the content of the source character for character, the source is
    as it was, and the function returns [True]. *)
Theorem copy_and_replace_plain_copy (fs : filesystem)
    (original_file_path copy_file_path content : string)
    (replace_list : option (list ReplaceInfo)) :
  fs !! original_file_path = Some (File content) ->
  original_file_path <> copy_file_path ->
  parent_check fs copy_file_path = Ok tt ->
  fs !! copy_file_path <> Some Dir ->
  replace_list = None \/ replace_list = Some [] ->
  let after :=
    copy_and_replace_file fs original_file_path copy_file_path replace_list in
  after = (<[copy_file_path := File content]> fs, Ok true)
  /\ fst after !! copy_file_path = Some (File content)
  /\ fst after !! original_file_path = Some (File content).
Proof.
  intros Hsrc Hne Hparent Hdir Hlist after. subst after.
  unfold copy_and_replace_file.
  rewrite (shutil_copy_onto_file _ _ _ content) by done.
  assert (match replace_list with
          | Some (r :: rs) => false
          | _ => true
          end = true) as Hempty by (by destruct Hlist as [-> | ->]).
  destruct replace_list as [[|r rs]|]; try discriminate Hempty;
    cbn [fst]; rewrite lookup_insert_eq, lookup_insert_ne, Hsrc by done;
    done.
Qed.

(** X26: with replacements the copy holds the text of the source, its
    line ends read as [\n], in which the replacements were made one
    after the other in the order of the list, each on the result of the
    one before; the source is as it was. *)
Theorem copy_and_replace_replaces (fs : filesystem)
    (original_file_path copy_file_path content : string)
    (r : ReplaceInfo) (rs : list ReplaceInfo) :
  fs !! original_file_path = Some (File content) ->
  original_file_path <> copy_file_path ->
  parent_check fs copy_file_path = Ok tt ->
  fs !! copy_file_path <> Some Dir ->
  let after :=
    copy_and_replace_file fs original_file_path copy_file_path
      (Some (r :: rs)) in
  let replaced :=
    replace_all
      (str_replace (universal_newlines content) (old_str r) (new_str r)) rs in
  after = (<[copy_file_path := File replaced]> fs, Ok true)
  /\ fst after !! original_file_path = Some (File content).
Proof.
  intros Hsrc Hne Hparent Hdir after replaced.
  assert (after = (<[copy_file_path := File replaced]> fs, Ok true)) as Hafter.
  { subst after replaced. unfold copy_and_replace_file.
    rewrite (shutil_copy_onto_file _ _ _ content) by done.
    unfold open_read. rewrite lookup_insert_eq.
    rewrite open_write_effect.
    - change (String.eqb "w" "a") with false. cbn iota.
      unfold file_write. rewrite lookup_insert_eq, !insert_insert_eq.
      by rewrite append_nil_l.
    - by apply parent_check_insert_file.
    - by rewrite lookup_insert_eq. }
  split; [exact Hafter|]. rewrite Hafter. cbn [fst].
  by rewrite lookup_insert_ne.
Qed.

(** X27: when the destination is a directory the file is copied into
    it under the name of the source; with replacements the function
    then raises the [IsADirectoryError] of opening the directory, and
    the copy stays as it was made. *)
Theorem copy_and_replace_into_directory (fs : filesystem)
    (original_file_path copy_file_path content : string)
    (r : ReplaceInfo) (rs : list ReplaceInfo) :
  let target := path_join copy_file_path (basename original_file_path) in
  fs !! original_file_path = Some (File content) ->
  fs !! copy_file_path = Some Dir ->
  original_file_path <> target ->
  parent_check fs target = Ok tt ->
  fs !! target <> Some Dir ->
  copy_and_replace_file fs original_file_path copy_file_path (Some (r :: rs))
  = (<[target := File content]> fs, Raise (is_a_directory copy_file_path))
  /\ copy_and_replace_file fs original_file_path copy_file_path None
     = (<[target := File content]> fs, Ok true).
Proof.
  intros target Hsrc Hdst Hne Hparent Hdir.
  assert (shutil_copy fs original_file_path copy_file_path
          = Copied (<[target := File content]> fs)) as Hcopy.
  { unfold shutil_copy. rewrite Hdst. by apply copyfile_onto_file. }
  assert (target <> copy_file_path) as Hother by congruence.
  unfold copy_and_replace_file. rewrite Hcopy. split; [|reflexivity].
  unfold open_read. by rewrite lookup_insert_ne, Hdst.
Qed.

(** ** Hashes *)

Lemma length_append (s t : string) :
  String.length (s +:+ t) = (String.length s + String.length t)%nat.
Proof.
  induction s as [|c s IH]; [reflexivity|].
  rewrite append_cons. simpl. by rewrite IH.
Qed.

(** X28: for a digest of 32 characters: the hash of kind [EXAMPLE] is
    the hash of kind [GENERAL] of the same text after the tag [ex]; no
    hash of one kind is a hash of the other; two texts have the same
    hash of one kind when they have the same hash of the other; a kind
    that is no member of [HashChangeKind] raises [ValueError]. *)
Theorem text_to_hash_kinds (text other : string) (v : pyarg) :
  (forall t, String.length (md5_hexdigest t) = 32%nat) ->
  (exists h,
     text_to_hash text (Kind GENERAL) = Ok h
     /\ text_to_hash text (Kind EXAMPLE) = Ok ("ex" +:+ h))
  /\ text_to_hash text (Kind GENERAL) <> text_to_hash other (Kind EXAMPLE)
  /\ (text_to_hash text (Kind EXAMPLE) = text_to_hash other (Kind EXAMPLE)
      <-> text_to_hash text (Kind GENERAL)
          = text_to_hash other (Kind GENERAL))
  /\ text_to_hash text (NotAKind v) = Raise (MkExn ValueErrorC EmptyString).
Proof.
  intros Hlen. unfold text_to_hash. split; [eauto|]. split; [|split; [|done]].
  - intros [= H]. apply (f_equal String.length) in H.
    rewrite (length_append "ex"), !Hlen in H. simpl in H. lia.
  - split; intros [= H].
    + change (md5_hexdigest text = md5_hexdigest other) in H. by rewrite H.
    + by rewrite H.
Qed.

(** ** Folders *)

(** X29: how a call of [create_folder] ended tells what happened:
    [False] when the path was there, and then nothing changed; [True]
    when it was not there and [makedirs] succeeded; an exception when it
    was not there and [makedirs] raised it, the same exception whatever
    its class. *)
Theorem create_folder_outcomes (fs fs' : filesystem) (path : string)
    (r : result bool) :
  create_folder fs path = (fs', r) ->
  match r with
  | Ok false => path_exists fs path = true /\ fs' = fs
  | Ok true =>
      path_exists fs path = false /\ makedirs fs path = (fs', Ok tt)
  | Raise e =>
      path_exists fs path = false /\ makedirs fs path = (fs', Raise e)
  end.
Proof.
  unfold create_folder. destruct (path_exists fs path); cbn [negb].
  - by intros [= <- <-].
  - destruct (makedirs fs path) as [fs1 [[] | e]].
    + by intros [= <- <-].
    + cbn [handle]. destruct (isinstance e OSErrorC); by intros [= <- <-].
Qed.

(** X30: when [makedirs] leaves the path it was asked for, a second
    call after one that returned [True] returns [False] and changes
    nothing. *)
Theorem create_folder_twice (fs fs' : filesystem) (path : string) :
  (makedirs fs path = (fs', Ok tt) -> path_exists fs' path = true) ->
  create_folder fs path = (fs', Ok true) ->
  create_folder fs' path = (fs', Ok false).
Proof.
  intros Hlib Hfirst. unfold create_folder in *.
  destruct (path_exists fs path); [discriminate Hfirst|]. cbn [negb] in Hfirst.
  destruct (makedirs fs path) as [fs1 [[] | e]].
  - injection Hfirst as ->. by rewrite Hlib.
  - cbn [handle] in Hfirst.
    destruct (isinstance e OSErrorC); discriminate Hfirst.
Qed.

End Library.

(** * The properties on the reference instances *)

Example fragment_loads_sample :
  fragment_loads sample_document = inl sample_value
  /\ fragment_loads malformed_document = inr "Expecting value".
Proof. split; vm_compute; reflexivity. Qed.

Example plain_csv_reader_sample :
  plain_csv_reader sample_table = sample_header :: sample_rows
  /\ plain_csv_reader header_text = [sample_header].
Proof. split; vm_compute; reflexivity. Qed.

Example read_csv_sample :
  read_csv plain_csv_reader sample_files "table.csv" 2 true
  = Ok [ HeaderRow sample_header;
         RowGroup [["a"; "1"]; ["b"; "2"]];
         RowGroup [["c"; "3"]] ]
  /\ read_csv plain_csv_reader sample_files "table.csv" (-2) false
     = Ok [ RowGroup [sample_header; ["a"; "1"]];
            RowGroup [["b"; "2"]; ["c"; "3"]] ].
Proof. split; vm_compute; reflexivity. Qed.

Example splitext_samples :
  splitext "dir.d/a.txt" = ("dir.d/a", ".txt")
  /\ splitext ".bashrc" = (".bashrc", "")
  /\ splitext "a/b.c/d" = ("a/b.c/d", "")
  /\ splitext "archive.tar.gz" = ("archive.tar", ".gz")
  /\ dirname "a/b/c.txt" = "a/b"
  /\ dirname "/c.txt" = "/"
  /\ dirname "c.txt" = "".
Proof. repeat split; reflexivity. Qed.

Example format_url_sample :
  format_url "http" "127.0.0.1" 8080 "status" = "http://127.0.0.1:8080/status".
Proof. vm_compute. reflexivity. Qed.

Example common_request_sample :
  common_request echo_server "127.0.0.1" 8080 "status" 2 "http"
    (PDict []) (PInt 7) (Member (RequestMethod POST))
  = Ok (PInt 7, true, EmptyString).
Proof. vm_compute. reflexivity. Qed.

Lemma read_csv_row_groups_witness :
  let n := Z.of_nat (length sample_rows) in
  exists groups : list (list row),
    read_csv plain_csv_reader sample_files "table.csv" 2 true
    = Ok ([HeaderRow sample_header] ++ map RowGroup groups)
    /\ Z.of_nat (length groups) = ceil_div n 2
    /\ concat groups = sample_rows
    /\ (forall (j : nat) (g : list row),
          groups !! j = Some g ->
          g = take (Z.to_nat 2) (drop (j * Z.to_nat 2) sample_rows))
    /\ (0 < n ->
        exists g, last groups = Some g
                  /\ Z.of_nat (length g) = if n mod 2 =? 0 then 2 else n mod 2).
Proof.
  apply (read_csv_row_groups plain_csv_reader sample_files "table.csv"
           sample_table 2 true sample_header sample_rows).
  - vm_compute. reflexivity.
  - vm_compute. reflexivity.
  - lia.
Defined.

Lemma read_csv_header_only_witness :
  (exists data,
     read_csv plain_csv_reader sample_files "header.csv" 1000 true = Ok data
     /\ length data = 1%nat
     /\ data = [HeaderRow sample_header])
  /\ read_csv plain_csv_reader sample_files "none.csv" 1000 false
     = Raise (file_not_found (no_such_file "none.csv")).
Proof.
  apply (read_csv_header_only plain_csv_reader sample_files "header.csv"
           "none.csv" header_text sample_header 1000 false).
  - vm_compute. reflexivity.
  - vm_compute. reflexivity.
  - vm_compute. reflexivity.
Defined.

Lemma read_csv_zero_chunk_size_witness :
  read_csv plain_csv_reader sample_files "table.csv" 0 true
  = Raise zero_division
  /\ exn_cls zero_division = ZeroDivisionErrorC
  /\ forall e, zero_division <> file_not_found e.
Proof.
  apply (read_csv_zero_chunk_size plain_csv_reader sample_files "table.csv"
           sample_table true sample_header ["a"; "1"]
           [["b"; "2"]; ["c"; "3"]]).
  - vm_compute. reflexivity.
  - vm_compute. reflexivity.
Defined.

Lemma read_json_reports_witness :
  let not_found := file_not_found (no_such_file "none.json") in
  let parse_error :=
    json_decode_error (MkExn JSONDecodeErrorC "Expecting value") in
  read_json fragment_loads sample_files "none.json" 0 = Raise not_found
  /\ read_json fragment_loads sample_files "bad.json" 0 = Raise parse_error
  /\ not_found <> parse_error
  /\ exn_str not_found
     = "file not found error : " +:+ exn_str (no_such_file "none.json")
  /\ exn_str parse_error = "json decode error : " +:+ "Expecting value"
  /\ read_json fragment_loads sample_files "good.json" 0 = Ok sample_value.
Proof.
  apply (read_json_reports fragment_loads sample_files "none.json"
           "bad.json" "good.json" malformed_document sample_document
           "Expecting value" sample_value 0).
  - vm_compute. reflexivity.
  - vm_compute. reflexivity.
  - vm_compute. reflexivity.
  - vm_compute. reflexivity.
  - vm_compute. reflexivity.
Defined.

Lemma read_json_chunked_never_returns_witness :
  (forall v, read_json fragment_loads sample_files "good.json" 4 <> Ok v)
  /\ (exists e, read_json fragment_loads sample_files "good.json" 4 = Raise e)
  /\ (forall content,
        sample_files !! "good.json" = Some (File content) ->
        read_json fragment_loads sample_files "good.json" 4
        = Raise str_has_no_read)
  /\ (forall k v,
        read_json fragment_loads sample_files "good.json" k = Ok v -> k = 0).
Proof.
  apply (read_json_chunked_never_returns fragment_loads sample_files
           "good.json" 4).
  lia.
Defined.

Lemma common_request_unsupported_method_witness :
  common_request echo_server "127.0.0.1" 8080 "status" 2 "http"
    (PDict []) (PDict []) (Value (PStr "PATCH"))
  = Ok (PNone, false, "Do not support request method").
Proof.
  apply (common_request_unsupported_method echo_server "127.0.0.1" 8080
           "status" 2 "http" (PDict []) (PDict []) (Value (PStr "PATCH"))).
  intros m H. discriminate H.
Defined.

(** C8, as the claim has it, fails: the string ["PATCH"] is no member of
    [RequestMethods], and the call returns the failure triple where the
    claim has the exception reach the caller. *)
Lemma unsupported_method_does_not_propagate :
  (forall m : RequestMethods,
     Value (PStr "PATCH") <> Member (RequestMethod m))
  /\ common_request echo_server "127.0.0.1" 8080 "status" 2 "http"
       (PDict []) (PDict []) (Value (PStr "PATCH"))
     = Ok (PNone, false, "Do not support request method")
  /\ ~ exists e,
         common_request echo_server "127.0.0.1" 8080 "status" 2 "http"
           (PDict []) (PDict []) (Value (PStr "PATCH"))
         = Raise e.
Proof.
  split; [intros m H; discriminate H|].
  split; [vm_compute; reflexivity|].
  intros [e H]. vm_compute in H. discriminate H.
Qed.



Example str_replace_samples :
  str_replace "aaa" "aa" "b" = "ba"
  /\ str_replace "abc" "" "-" = "-a-b-c-"
  /\ str_replace "" "" "x" = "x"
  /\ str_replace "" "a" "x" = ""
  /\ str_replace "abcabc" "bc" "" = "aa"
  /\ str_replace "hello" "l" "LL" = "heLLLLo".
Proof. repeat split; vm_compute; reflexivity. Qed.

Example reference_writers_samples :
  fragment_loads (encode_json sample_value) = inl sample_value
  /\ plain_csv_reader
       (universal_newlines (fst (plain_csv_writerows sample_rows_data)))
     = sample_rows
  /\ plain_splitlines ("one" +:+ String LF "two" +:+ String LF EmptyString)
     = ["one"; "two"].
Proof. repeat split; vm_compute; reflexivity. Qed.

Lemma common_request_success_witness :
  common_request echo_server "127.0.0.1" 8080 "status" 2 "http"
    (PDict []) (PInt 7) (Member (RequestMethod PUT))
  = Ok (PInt 7, true, EmptyString).
Proof.
  apply (common_request_success echo_server "127.0.0.1" 8080 "status" 2
           "http" (PDict []) (PInt 7) PUT
           (MkResponse 200 (Ok (PDict [("result", PInt 7)])))
           (PDict [("result", PInt 7)]) (PInt 7)).
  - reflexivity.
  - reflexivity.
  - reflexivity.
  - vm_compute. reflexivity.
Defined.

Lemma common_request_success_only_witness :
  exists m resp body,
    Member (RequestMethod POST) = Member (RequestMethod m)
    /\ echo_server m (format_url "http" "127.0.0.1" 8080 "status") 2
         (PDict []) (PInt 7)
       = Ok resp
    /\ status_code resp = 200
    /\ json_body resp = Ok body
    /\ getitem body "result" = Ok (PInt 7)
    /\ EmptyString = EmptyString.
Proof.
  apply (common_request_success_only echo_server "127.0.0.1" 8080 "status" 2
           "http" (PDict []) (PInt 7) (Member (RequestMethod POST)) (PInt 7)
           EmptyString).
  vm_compute. reflexivity.
Defined.

Lemma common_request_other_status_witness :
  common_request missing_server "127.0.0.1" 8080 "status" 2 "http"
    (PDict []) (PDict []) (Member (RequestMethod GET))
  = Ok (PNone, false, EmptyString).
Proof.
  apply (common_request_other_status missing_server "127.0.0.1" 8080
           "status" 2 "http" (PDict []) (PDict []) GET
           (MkResponse 404 (Ok (PDict [("detail", PStr "Not Found")])))).
  - reflexivity.
  - vm_compute. discriminate.
Defined.

Lemma common_request_exception_witness :
  common_request unreachable_server "127.0.0.1" 8080 "status" 2 "http"
    (PDict []) (PDict []) (Member (RequestMethod DELETE))
  = Ok (PNone, false, "Connection refused").
Proof.
  apply (common_request_exception unreachable_server "127.0.0.1" 8080
           "status" 2 "http" (PDict []) (PDict []) DELETE
           (MkExn RequestsConnectionErrorC "Connection refused")).
  left. reflexivity.
Defined.

Lemma read_file_lines_of_whole_witness :
  read_file plain_splitlines sample_tree "crlf.txt" true 2
  = Ok (Lines (plain_splitlines ("one" +:+ String LF "two"))).
Proof.
  apply (read_file_lines_of_whole plain_splitlines sample_tree "crlf.txt"
           ("one" +:+ String LF "two") 0 2).
  vm_compute. reflexivity.
Defined.

Lemma readers_on_directory_witness :
  read_file plain_splitlines sample_tree "docs" false 0
  = Raise (is_a_directory "docs")
  /\ read_json fragment_loads sample_tree "docs" 0
     = Raise (is_a_directory "docs")
  /\ read_csv plain_csv_reader sample_tree "docs" 0 true
     = Raise (is_a_directory "docs").
Proof.
  apply (readers_on_directory plain_splitlines fragment_loads
           plain_csv_reader sample_tree "docs" false true 0).
  vm_compute. reflexivity.
Defined.

Lemma read_csv_header_of_empty_file_witness :
  read_csv plain_csv_reader sample_tree "empty.csv" 1000 true
  = Raise (MkExn StopIterationC EmptyString).
Proof.
  apply (read_csv_header_of_empty_file plain_csv_reader sample_tree
           "empty.csv" EmptyString 1000).
  - vm_compute. reflexivity.
  - vm_compute. reflexivity.
Defined.

Lemma writers_mode_defaults_to_w_witness :
  write_file encode_json sample_tree "docs/a.txt" (PStr "new") "x"
  = write_file encode_json sample_tree "docs/a.txt" (PStr "new") "w"
  /\ write_json fragment_dump sample_tree "docs/a.txt" (PStr "new") "x"
     = write_json fragment_dump sample_tree "docs/a.txt" (PStr "new") "w"
  /\ write_csv plain_csv_writerows sample_tree "docs/a.txt" (PStr "new") "x"
     = write_csv plain_csv_writerows sample_tree "docs/a.txt" (PStr "new") "w".
Proof.
  apply (writers_mode_defaults_to_w encode_json fragment_dump
           plain_csv_writerows sample_tree "docs/a.txt" (PStr "new") "x").
  discriminate.
Defined.

Lemma writers_touch_one_path_witness :
  fst (write_file encode_json sample_tree "docs/a.txt" (PStr "new") "w")
    !! "crlf.txt" = sample_tree !! "crlf.txt"
  /\ fst (write_json fragment_dump sample_tree "docs/a.txt" (PStr "new") "w")
       !! "crlf.txt" = sample_tree !! "crlf.txt"
  /\ fst (write_csv plain_csv_writerows sample_tree "docs/a.txt"
            (PStr "new") "w")
       !! "crlf.txt" = sample_tree !! "crlf.txt".
Proof.
  apply (writers_touch_one_path encode_json fragment_dump plain_csv_writerows
           sample_tree "docs/a.txt" "crlf.txt" (PStr "new") "w").
  discriminate.
Defined.

Lemma write_file_appends_witness :
  let first := write_file encode_json sample_tree "docs/a.txt" (PStr "a") "a" in
  let second := write_file encode_json (fst first) "docs/a.txt" (PStr "b") "a" in
  snd first = Ok true
  /\ snd second = Ok true
  /\ fst second !! "docs/a.txt"
     = Some (File (text_at sample_tree "docs/a.txt" +:+ "a" +:+ "b")).
Proof.
  apply (write_file_appends encode_json sample_tree "docs/a.txt" "a" "b").
  - vm_compute. reflexivity.
  - vm_compute. discriminate.
Defined.

Lemma write_file_overwrites_witness :
  let first := write_file encode_json sample_tree "docs/a.txt" (PStr "a") "w" in
  let second := write_file encode_json (fst first) "docs/a.txt" (PStr "b") "w" in
  fst first !! "docs/a.txt" = Some (File "a")
  /\ fst second !! "docs/a.txt" = Some (File "b")
  /\ fst second
     = fst (write_file encode_json sample_tree "docs/a.txt" (PStr "b") "w").
Proof.
  apply (write_file_overwrites encode_json sample_tree "docs/a.txt" "a" "b").
  - vm_compute. reflexivity.
  - vm_compute. discriminate.
Defined.

Lemma write_file_read_file_exact_witness :
  read_file plain_splitlines
    (fst (write_file encode_json sample_tree "docs/b.txt" (PStr "hello") "w"))
    "docs/b.txt" false 3
  = Ok (Whole "hello").
Proof.
  apply (write_file_read_file_exact plain_splitlines encode_json sample_tree
           "docs/b.txt" "hello" 3).
  - vm_compute. reflexivity.
  - vm_compute. discriminate.
  - vm_compute. reflexivity.
Defined.

Lemma write_json_interrupted_witness :
  write_json interrupted_dump sample_tree "docs/a.txt" sample_value "w"
  = (<["docs/a.txt" := File "{"]> sample_tree, Ok false).
Proof.
  apply (write_json_interrupted interrupted_dump sample_tree "docs/a.txt"
           sample_value "{"
           (MkExn TypeErrorC "Object of type set is not JSON serializable")).
  - vm_compute. reflexivity.
  - vm_compute. discriminate.
  - reflexivity.
Defined.

Lemma write_json_read_json_witness :
  snd (write_json fragment_dump sample_tree "docs/v.json" sample_value "w")
  = Ok true
  /\ read_json fragment_loads
       (fst (write_json fragment_dump sample_tree "docs/v.json"
               sample_value "w"))
       "docs/v.json" 0
     = Ok sample_value.
Proof.
  apply (write_json_read_json fragment_loads fragment_dump sample_tree
           "docs/v.json" sample_value sample_value
           (encode_json sample_value)).
  - vm_compute. reflexivity.
  - vm_compute. discriminate.
  - reflexivity.
  - vm_compute. reflexivity.
Defined.

Lemma write_csv_read_csv_witness :
  snd (write_csv plain_csv_writerows sample_tree "docs/t.csv"
         sample_rows_data "w")
  = Ok true
  /\ exists groups,
       read_csv plain_csv_reader
         (fst (write_csv plain_csv_writerows sample_tree "docs/t.csv"
                 sample_rows_data "w"))
         "docs/t.csv" 2 false
       = Ok (map RowGroup groups)
       /\ concat groups = sample_rows.
Proof.
  apply (write_csv_read_csv plain_csv_reader plain_csv_writerows sample_tree
           "docs/t.csv" sample_rows_data
           (fst (plain_csv_writerows sample_rows_data)) sample_rows 2).
  - vm_compute. reflexivity.
  - vm_compute. discriminate.
  - reflexivity.
  - vm_compute. reflexivity.
  - lia.
Defined.

Lemma copy_and_replace_same_file_witness :
  copy_and_replace_file sample_tree "docs/a.txt" "docs/a.txt"
    (Some sample_replacements)
  = (sample_tree, Ok false).
Proof.
  apply (copy_and_replace_same_file sample_tree "docs/a.txt"
           "alpha beta alpha" (Some sample_replacements)).
  vm_compute. reflexivity.
Defined.

Lemma copy_and_replace_missing_source_witness :
  copy_and_replace_file sample_tree "docs/none.txt" "docs/none.txt" None
  = (sample_tree, Raise (no_such_file "docs/none.txt")).
Proof.
  apply (copy_and_replace_missing_source sample_tree "docs/none.txt"
           "docs/none.txt" None).
  vm_compute. reflexivity.
Defined.

Lemma copy_and_replace_plain_copy_witness :
  let after :=
    copy_and_replace_file sample_tree "crlf.txt" "docs/copy.txt" (Some []) in
  after
  = (<["docs/copy.txt" := File ("one" +:+ String CR (String LF "two"))]>
       sample_tree, Ok true)
  /\ fst after !! "docs/copy.txt"
     = Some (File ("one" +:+ String CR (String LF "two")))
  /\ fst after !! "crlf.txt"
     = Some (File ("one" +:+ String CR (String LF "two"))).
Proof.
  apply (copy_and_replace_plain_copy sample_tree "crlf.txt" "docs/copy.txt"
           ("one" +:+ String CR (String LF "two")) (Some [])).
  - vm_compute. reflexivity.
  - discriminate.
  - vm_compute. reflexivity.
  - vm_compute. discriminate.
  - right. reflexivity.
Defined.

Lemma copy_and_replace_replaces_witness :
  let after :=
    copy_and_replace_file sample_tree "docs/a.txt" "docs/b.txt"
      (Some sample_replacements) in
  let replaced :=
    replace_all
      (str_replace (universal_newlines "alpha beta alpha") "alpha" "beta")
      [MkReplaceInfo "beta" "gamma"] in
  after = (<["docs/b.txt" := File replaced]> sample_tree, Ok true)
  /\ fst after !! "docs/a.txt" = Some (File "alpha beta alpha").
Proof.
  apply (copy_and_replace_replaces sample_tree "docs/a.txt" "docs/b.txt"
           "alpha beta alpha" (MkReplaceInfo "alpha" "beta")
           [MkReplaceInfo "beta" "gamma"]).
  - vm_compute. reflexivity.
  - discriminate.
  - vm_compute. reflexivity.
  - vm_compute. discriminate.
Defined.

Example copy_and_replace_sample :
  fst (copy_and_replace_file sample_tree "docs/a.txt" "docs/b.txt"
         (Some sample_replacements))
    !! "docs/b.txt"
  = Some (File "gamma gamma gamma").
Proof. vm_compute. reflexivity. Qed.

Lemma text_to_hash_kinds_witness :
  (exists h,
     text_to_hash constant_digest "a" (Kind GENERAL) = Ok h
     /\ text_to_hash constant_digest "a" (Kind EXAMPLE) = Ok ("ex" +:+ h))
  /\ text_to_hash constant_digest "a" (Kind GENERAL)
     <> text_to_hash constant_digest "b" (Kind EXAMPLE)
  /\ (text_to_hash constant_digest "a" (Kind EXAMPLE)
      = text_to_hash constant_digest "b" (Kind EXAMPLE)
      <-> text_to_hash constant_digest "a" (Kind GENERAL)
          = text_to_hash constant_digest "b" (Kind GENERAL))
  /\ text_to_hash constant_digest "a" (NotAKind (Value (PStr "general")))
     = Raise (MkExn ValueErrorC EmptyString).
Proof.
  apply (text_to_hash_kinds constant_digest "a" "b" (Value (PStr "general"))).
  intros t. reflexivity.
Defined.

Lemma create_folder_outcomes_witness :
  path_exists sample_tree "docs/new" = false
  /\ single_mkdir sample_tree "docs/new"
     = (<["docs/new" := Dir]> sample_tree, Ok tt).
Proof.
  apply (create_folder_outcomes single_mkdir sample_tree
           (<["docs/new" := Dir]> sample_tree) "docs/new" (Ok true)).
  vm_compute. reflexivity.
Defined.

Lemma create_folder_twice_witness :
  create_folder single_mkdir (<["docs/new" := Dir]> sample_tree) "docs/new"
  = (<["docs/new" := Dir]> sample_tree, Ok false).
Proof.
  apply (create_folder_twice single_mkdir sample_tree
           (<["docs/new" := Dir]> sample_tree) "docs/new").
  - intros _. vm_compute. reflexivity.
  - vm_compute. reflexivity.
Defined.

Lemma copy_and_replace_into_directory_witness :
  copy_and_replace_file sample_tree "crlf.txt" "docs"
    (Some sample_replacements)
  = (<["docs/crlf.txt" := File ("one" +:+ String CR (String LF "two"))]>
       sample_tree, Raise (is_a_directory "docs"))
  /\ copy_and_replace_file sample_tree "crlf.txt" "docs" None
     = (<["docs/crlf.txt" := File ("one" +:+ String CR (String LF "two"))]>
          sample_tree, Ok true).
Proof.
  apply (copy_and_replace_into_directory sample_tree "crlf.txt" "docs"
           ("one" +:+ String CR (String LF "two"))
           (MkReplaceInfo "alpha" "beta") [MkReplaceInfo "beta" "gamma"]).
  - vm_compute. reflexivity.
  - vm_compute. reflexivity.
  - vm_compute. discriminate.
  - vm_compute. reflexivity.
  - vm_compute. discriminate.
Defined.
